(** * ABI compliance fixtures and the IR parity driver

    A shallow embedding of three Python programs of [abi/abi_gen]:

    - [tests/compliance_tests/generate_test_data.py], which writes the
      array, struct, enum and union fixtures;
    - [tools/generate_primitive_test_binaries.py], which writes the seven
      [AllPrimitives] fixtures;
    - [scripts/run_ir_parity_checks.py], the driver that builds the
      compliance harness and runs it in parity mode.

    The fixture generators are modelled over an executable model of
    [struct.pack] and of [bytearray.extend]; their file-system effects are
    recorded as a trace of events.  The driver is modelled by explicit state
    passing over an abstract operating system (path queries and
    [subprocess.run]).  The layout rules of the specification (dense packing,
    little-endian primitives, one-byte enum tags, untagged unions) are
    embedded separately, in [Module Layout], and compared with what the
    generators write. *)

From Stdlib Require Import ZArith List String Ascii Strings.Byte Lia Bool.
From Stdlib Require Import Floats.SpecFloat.
From stdpp Require Import base option list gmap strings pretty.
Import ListNotations.

Local Open Scope string_scope.
Local Open Scope Z_scope.

#[local] Set Warnings "-register-all".

(** ** Python values and exceptions *)

Module Py.

(** The exceptions the modelled library calls can raise. *)
Inductive exn : Type :=
| StructError      (* struct.error *)
| OverflowError
| ValueError
| OSError.

(** A call either raises or returns. *)
Definition result (A : Type) : Type := exn + A.

Definition raise {A : Type} (e : exn) : result A := inl e.
Definition ok {A : Type} (a : A) : result A := inr a.

Definition rbind {A B : Type} (r : result A) (k : A -> result B) : result B :=
  match r with
  | inl e => inl e
  | inr a => k a
  end.

(** Arguments of [struct.pack]: [int] and [float] objects.  A [float] is
    an IEEE-754 binary64 number. *)
Inductive pyval : Type :=
| PyInt (z : Z)
| PyFloat (f : spec_float).

(** Truthiness of an [Optional[str]]: [None] and the empty string are
    false. *)
Definition truthy_str (s : option string) : bool :=
  match s with
  | None => false
  | Some EmptyString => false
  | Some (String _ _) => true
  end.

(** The byte with value [z mod 256]. *)
Definition byte_of_Z (z : Z) : byte :=
  match Byte.of_N (Z.to_N (z mod 256)) with
  | Some b => b
  | None => x00
  end.

Definition Z_of_byte (b : byte) : Z := Z.of_N (Byte.to_N b).

(** [int.to_bytes(n, 'little')] on the low [8 * n] bits of [z]: for a
    negative [z] these are the bits of its two's complement. *)
Fixpoint le_bytes (n : nat) (z : Z) : list byte :=
  match n with
  | O => []
  | S k => byte_of_Z (Z.land z 255) :: le_bytes k (Z.shiftr z 8)
  end.

(** Sequencing of statements, in any of the monads below: the statement
    [y] runs first, and its value is bound to [x] in the rest [z]. *)
Definition bind {M : Type -> Type} `{MBind M} {A B : Type}
    (m : M A) (k : A -> M B) : M B := mbind k m.

Declare Scope py_scope.
Notation "x ← y ; z" := (bind y (fun x => z))
  (at level 20, y at level 100, z at level 200, only parsing) : py_scope.
Notation "y ;; z" := (bind y (fun _ => z))
  (at level 100, z at level 200, only parsing, right associativity) : py_scope.

(** The slice [data[start : start + len]]. *)
Definition slice {A : Type} (start len : nat) (data : list A) : list A :=
  firstn len (skipn start data).

End Py.

(** ** Floating-point literals and their bit patterns *)

Module PyFloat.

(** The value of the decimal literal [digits * 10 ^ e10], correctly
    rounded to binary64 (round to nearest, ties to even) as the Python
    parser does. *)
Definition literal (digits e10 : Z) : spec_float :=
  match digits with
  | Z0 => S754_zero false
  | _ =>
      if 0 <=? e10
      then binary_normalize 53 1024 (digits * 10 ^ e10) 0 false
      else
        let '(mz, ez, lz) :=
          SFdiv_core_binary 53 1024 (Z.abs digits) 0 (10 ^ (- e10)) 0 in
        binary_round_aux 53 1024 (digits <? 0) mz ez lz
  end.

(** Unary minus on a float. *)
Definition neg (x : spec_float) : spec_float := SFopp x.

(** [float(z)] for an [int]. *)
Definition of_int (z : Z) : spec_float := binary_normalize 53 1024 z 0 false.

(** The C cast [(float) x]: a binary64 value rounded to binary32. *)
Definition to_single (x : spec_float) : spec_float :=
  match x with
  | S754_finite s m e => binary_round 24 128 s m e
  | _ => x
  end.

Definition is_infinity (x : spec_float) : bool :=
  match x with
  | S754_infinity _ => true
  | _ => false
  end.

(** The IEEE-754 interchange bit pattern of [x] in a format with [mw]
    fraction bits and [ew] exponent bits ([mw = 23], [ew = 8] for binary32;
    [mw = 52], [ew = 11] for binary64).  [spec_float] has one NaN, which
    is given the pattern of the positive quiet NaN. *)
Definition bits (mw ew : Z) (x : spec_float) : Z :=
  let sign (s : bool) := if s then 2 ^ (mw + ew) else 0 in
  let emin := 3 - 2 ^ (ew - 1) - (mw + 1) in
  match x with
  | S754_zero s => sign s
  | S754_infinity s => sign s + (2 ^ ew - 1) * 2 ^ mw
  | S754_nan => (2 ^ ew - 1) * 2 ^ mw + 2 ^ (mw - 1)
  | S754_finite s m e =>
      if 2 ^ mw <=? Z.pos m
      then sign s + (e - emin + 1) * 2 ^ mw + (Z.pos m - 2 ^ mw)
      else sign s + Z.pos m
  end.

Definition bits32 (x : spec_float) : Z := bits 23 8 x.
Definition bits64 (x : spec_float) : Z := bits 52 11 x.

End PyFloat.

(** ** [struct.pack] *)

Module PyStruct.
Import Py.

Inductive byte_order : Type := LittleEndian | BigEndian.

(** The format characters the generators use. *)
Inductive fmt_code : Type :=
| c_B | c_H | c_I | c_Q      (* unsigned char, short, int, long long *)
| c_b | c_h | c_i | c_q      (* signed char, short, int, long long *)
| c_f | c_d.                 (* float, double *)

(** What [struct] takes from the machine in native mode: its byte order
    and the alignment of each C type. *)
Record platform : Type := {
  native_order : byte_order;
  native_align : fmt_code -> Z
}.

(** Byte order, size and alignment are selected by the first character of
    the format string. *)
Inductive mode : Type :=
| Native                          (* '@' or no prefix *)
| Standard (order : byte_order).  (* '=', '<', '>', '!' *)

Definition code_of_ascii (c : ascii) : option fmt_code :=
  if Ascii.eqb c "B" then Some c_B
  else if Ascii.eqb c "H" then Some c_H
  else if Ascii.eqb c "I" then Some c_I
  else if Ascii.eqb c "Q" then Some c_Q
  else if Ascii.eqb c "b" then Some c_b
  else if Ascii.eqb c "h" then Some c_h
  else if Ascii.eqb c "i" then Some c_i
  else if Ascii.eqb c "q" then Some c_q
  else if Ascii.eqb c "f" then Some c_f
  else if Ascii.eqb c "d" then Some c_d
  else None.

(** The format characters after the prefix.  The generators use neither
    repeat counts nor white space; a character other than the ten above is
    taken as a [struct.error]. *)
Fixpoint parse_codes (s : string) : result (list fmt_code) :=
  match s with
  | EmptyString => ok []
  | String c rest =>
      match code_of_ascii c with
      | None => raise StructError
      | Some k => rbind (parse_codes rest) (fun ks => ok (k :: ks))
      end
  end.

Definition parse_format (pf : platform) (fmt : string)
  : result (mode * list fmt_code) :=
  match fmt with
  | EmptyString => ok (Native, [])
  | String c rest =>
      if Ascii.eqb c "@" then rbind (parse_codes rest) (fun ks => ok (Native, ks))
      else if Ascii.eqb c "=" then
        rbind (parse_codes rest) (fun ks => ok (Standard (native_order pf), ks))
      else if Ascii.eqb c "<" then
        rbind (parse_codes rest) (fun ks => ok (Standard LittleEndian, ks))
      else if Ascii.eqb c ">" then
        rbind (parse_codes rest) (fun ks => ok (Standard BigEndian, ks))
      else if Ascii.eqb c "!" then
        rbind (parse_codes rest) (fun ks => ok (Standard BigEndian, ks))
      else rbind (parse_codes fmt) (fun ks => ok (Native, ks))
  end.

(** Size in bytes of each format character (the standard sizes, which are
    also the native ones of these C types). *)
Definition code_size (k : fmt_code) : nat :=
  match k with
  | c_B | c_b => 1
  | c_H | c_h => 2
  | c_I | c_i | c_f => 4
  | c_Q | c_q | c_d => 8
  end%nat.

(** The closed range of integers a format character accepts; [None] for
    the floating-point ones. *)
Definition code_range (k : fmt_code) : option (Z * Z) :=
  match k with
  | c_B => Some (0, 2 ^ 8 - 1)
  | c_H => Some (0, 2 ^ 16 - 1)
  | c_I => Some (0, 2 ^ 32 - 1)
  | c_Q => Some (0, 2 ^ 64 - 1)
  | c_b => Some (- 2 ^ 7, 2 ^ 7 - 1)
  | c_h => Some (- 2 ^ 15, 2 ^ 15 - 1)
  | c_i => Some (- 2 ^ 31, 2 ^ 31 - 1)
  | c_q => Some (- 2 ^ 63, 2 ^ 63 - 1)
  | c_f | c_d => None
  end.

Definition in_order (o : byte_order) (little : list byte) : list byte :=
  match o with
  | LittleEndian => little
  | BigEndian => rev little
  end.

(** The float argument of ['f'] and ['d']: a [float], or an [int]
    converted to one (too large an [int] is a [struct.error]). *)
Definition as_double (v : pyval) : result spec_float :=
  match v with
  | PyFloat f => ok f
  | PyInt z =>
      let f := PyFloat.of_int z in
      if PyFloat.is_infinity f then raise StructError else ok f
  end.

(** One item of the packed string.  An integer out of the range of its
    format character, or a [float] where an integer is required, is a
    [struct.error]; a finite [float] that rounds to a binary32 infinity
    is an [OverflowError], which [struct] turns into a [struct.error] when
    the argument was an [int]. *)
Definition pack_item (o : byte_order) (k : fmt_code) (v : pyval)
  : result (list byte) :=
  match code_range k with
  | Some (lo, hi) =>
      match v with
      | PyInt z =>
          if (lo <=? z) && (z <=? hi)
          then ok (in_order o (le_bytes (code_size k) z))
          else raise StructError
      | PyFloat _ => raise StructError
      end
  | None =>
      rbind (as_double v) (fun x =>
        match k with
        | c_f =>
            let y := PyFloat.to_single x in
            if PyFloat.is_infinity y && negb (PyFloat.is_infinity x)
            then raise (match v with
                        | PyInt _ => StructError
                        | PyFloat _ => OverflowError
                        end)
            else ok (in_order o (le_bytes 4 (PyFloat.bits32 y)))
        | _ => ok (in_order o (le_bytes 8 (PyFloat.bits64 x)))
        end)
  end.

(** Zero bytes inserted before an item at offset [off] so that it starts
    at a multiple of its alignment [al]. *)
Definition padding (off al : Z) : list byte :=
  repeat x00 (Z.to_nat ((- off) mod al)).

(** The items in order; [acc] is the string packed so far, which in native
    mode fixes the padding.  Too few or too many arguments is a
    [struct.error]. *)
Fixpoint pack_items (pf : platform) (m : mode) (ks : list fmt_code)
    (vs : list pyval) (acc : list byte) : result (list byte) :=
  match ks, vs with
  | [], [] => ok acc
  | k :: ks', v :: vs' =>
      match m with
      | Standard o =>
          rbind (pack_item o k v) (fun bs =>
            pack_items pf m ks' vs' (acc ++ bs))
      | Native =>
          rbind (pack_item (native_order pf) k v) (fun bs =>
            pack_items pf m ks' vs'
              (acc ++ padding (Z.of_nat (length acc)) (native_align pf k) ++ bs))
      end
  | _, _ => raise StructError
  end.

(** [struct.pack(fmt, *args)] *)
Definition pack (pf : platform) (fmt : string) (args : list pyval)
  : result (list byte) :=
  rbind (parse_format pf fmt) (fun '(m, ks) => pack_items pf m ks args []).

End PyStruct.


(** ** The operating system as the programs see it *)

Module Os.
Import Py.

(** [pathlib.Path]: kept abstract, so that nothing proved below depends on
    how paths are normalised or printed. *)
Class Pathlib : Type := {
  Path : Type;
  path_of_str : string -> Path;       (* Path(s) *)
  path_str : Path -> string;          (* str(p) *)
  path_div : Path -> Path -> Path;    (* p / q *)
  path_parent : Path -> Path;         (* p.parent *)
  path_is_absolute : Path -> bool     (* p.is_absolute() *)
}.

(** [p / "name"] with a string operand. *)
Definition path_div_str `{Pathlib} (p : Path) (s : string) : Path :=
  path_div p (path_of_str s).

(** [os.path.join(a, b)] of [posixpath]. *)
Definition starts_with_sep (s : string) : bool :=
  match s with
  | String c _ => Ascii.eqb c "/"
  | EmptyString => false
  end.

Fixpoint ends_with_sep (s : string) : bool :=
  match s with
  | EmptyString => false
  | String c EmptyString => Ascii.eqb c "/"
  | String _ rest => ends_with_sep rest
  end.

Definition os_path_join (a b : string) : string :=
  if starts_with_sep b then b
  else if String.eqb a EmptyString || ends_with_sep a then a ++ b
  else a ++ "/" ++ b.

(** What [subprocess.run] hands back: the child's return code, and its
    standard error when that was captured. *)
Record CompletedProcess : Type := {
  returncode : Z;
  stderr : option string
}.

(** What a program does to the outside world, in order.  A trace records
    the operations a program asks for; the file system is taken to grant
    them. *)
Inductive event `{Pathlib} : Type :=
| EvPrint (line : string)                        (* print(line) *)
| EvMkdir (p : Path)                             (* mkdir -p *)
| EvWrite (p : Path) (data : list byte)          (* open(p, 'wb').write(data) *)
| EvRun (cmd : list string) (cwd : option Path)
        (res : result CompletedProcess).         (* subprocess.run(cmd, cwd=cwd) *)

Section Traces.
Context `{Pathlib}.

(** The files a trace writes, in order, with their contents. *)
Fixpoint files_written (t : list event) : list (Path * list byte) :=
  match t with
  | [] => []
  | EvWrite p data :: t' => (p, data) :: files_written t'
  | _ :: t' => files_written t'
  end.

(** The processes a trace starts, in order. *)
Fixpoint processes_run (t : list event)
  : list (list string * option Path * result CompletedProcess) :=
  match t with
  | [] => []
  | EvRun cmd cwd res :: t' => (cmd, cwd, res) :: processes_run t'
  | _ :: t' => processes_run t'
  end.

(** A file system: the content found under each path string.  Writing
    a file replaces its content; [print] and [mkdir -p] leave the
    contents of files alone. *)
Definition apply_event (fs : gmap string (list byte)) (ev : event)
  : gmap string (list byte) :=
  match ev with
  | EvWrite p data => <[path_str p := data]> fs
  | _ => fs
  end.

Definition apply_trace (fs : gmap string (list byte)) (t : list event)
  : gmap string (list byte) :=
  fold_left apply_event t fs.

End Traces.

(** *** Programs that only write: a trace and a result *)

Definition io `{Pathlib} (A : Type) : Type := (list event * result A)%type.

#[global] Instance io_ret `{Pathlib} : MRet io := fun A a => ([], ok a).

#[global] Instance io_bind `{Pathlib} : MBind io := fun A B k m =>
  match m with
  | (t, inl e) => (t, inl e)
  | (t, inr a) => let '(t', r) := k a in ((t ++ t')%list, r)
  end.

Section Io.
Context `{Pathlib}.

Definition emit (ev : event) : io unit := ([ev], ok tt).

(** [print(line)] *)
Definition print (line : string) : io unit := emit (EvPrint line).

(** [bytearray()] *)
Definition bytearray : list byte := [].

(** [data.extend(arg)] where [arg] is a [bytes] object whose evaluation
    may have raised. *)
Definition extend (data : list byte) (arg : result (list byte))
  : io (list byte) :=
  ([], rbind arg (fun bs => ok (data ++ bs)%list)).

(** [data.extend(xs)] where [xs] is a list of [int]: each must be in
    [range(256)]. *)
Definition extend_ints (data : list byte) (xs : list Z) : io (list byte) :=
  if forallb (fun x => (0 <=? x) && (x <? 256)) xs
  then ([], ok (data ++ map byte_of_Z xs)%list)
  else ([], raise ValueError).

(** A library call that touches nothing outside, and may raise. *)
Definition evaluate {A : Type} (r : result A) : io A := ([], r).

Definition trace_of {A : Type} (m : io A) : list event := fst m.
Definition result_of {A : Type} (m : io A) : result A := snd m.

(** The files a program writes, and whether it runs to its end. *)
Definition written {A : Type} (m : io A) : list (Path * list byte) :=
  files_written (trace_of m).
Definition completes (m : io unit) : Prop := result_of m = ok tt.

End Io.

End Os.

(** ** [tests/compliance_tests/generate_test_data.py] *)

Module GenerateTestData.
Import Py PyStruct Os.
Local Open Scope py_scope.

Section Script.
Context `{Pathlib}.
Variable pf : platform.
(** [Path(__file__).parent] *)
Variable SCRIPT_DIR : Path.

Definition BINARY_DIR : Path := path_div_str SCRIPT_DIR "binary_data".

Definition ensure_dir (path : Path) : io unit := emit (EvMkdir path).

Definition write_binary (filename : string) (data : list byte) : io unit :=
  let filepath := path_div_str BINARY_DIR filename in
  ensure_dir (path_parent filepath) ;;
  emit (EvWrite filepath data) ;;
  print ("Generated: " ++ path_str filepath).

Definition generate_arrays_simple : io unit :=
  let data := bytearray in
  data ← extend_ints data [1; 2; 3; 4];
  data ← extend data (pack pf "<HHH" [PyInt 10; PyInt 20; PyInt 30]);
  data ← extend data (pack pf "<II" [PyInt 100; PyInt 200]);
  data ← extend data
    (pack pf "<iiiii" [PyInt (-1); PyInt 0; PyInt 1; PyInt (-100); PyInt 100]);
  write_binary "arrays/simple.bin" data.

Definition generate_arrays_zeros : io unit :=
  let data := bytearray in
  data ← extend_ints data [0; 0; 0; 0];
  data ← extend data (pack pf "<HHH" [PyInt 0; PyInt 0; PyInt 0]);
  data ← extend data (pack pf "<II" [PyInt 0; PyInt 0]);
  data ← extend data
    (pack pf "<iiiii" [PyInt 0; PyInt 0; PyInt 0; PyInt 0; PyInt 0]);
  write_binary "arrays/all_zeros.bin" data.

Definition generate_structs_simple : io unit :=
  let data := bytearray in
  data ← extend data (pack pf "<Q" [PyInt 12345]);
  data ← extend data (pack pf "B" [PyInt 0x42]);
  data ← extend data (pack pf "<H" [PyInt 9999]);
  write_binary "structs/simple.bin" data.

Definition generate_structs_rectangle : io unit :=
  let data := bytearray in
  data ← extend data (pack pf "<ii" [PyInt 10; PyInt 20]);
  data ← extend data (pack pf "<ii" [PyInt 100; PyInt 80]);
  data ← extend data (pack pf "<I" [PyInt 0xFF0000]);
  write_binary "structs/rectangle.bin" data.

Definition generate_enums_none : io unit :=
  let data := bytearray in
  data ← extend data (pack pf "B" [PyInt 0]);
  write_binary "enums/none.bin" data.

Definition generate_enums_value : io unit :=
  let data := bytearray in
  data ← extend data (pack pf "B" [PyInt 1]);
  data ← extend data (pack pf "<I" [PyInt 42]);
  write_binary "enums/value.bin" data.

Definition generate_enums_pair : io unit :=
  let data := bytearray in
  data ← extend data (pack pf "B" [PyInt 2]);
  data ← extend data (pack pf "<H" [PyInt 100]);
  data ← extend data (pack pf "<H" [PyInt 200]);
  write_binary "enums/pair.bin" data.

Definition generate_unions_int : io unit :=
  let data := bytearray in
  data ← extend data (pack pf "<i" [PyInt (-42)]);
  write_binary "unions/int_value.bin" data.

Definition generate_unions_float : io unit :=
  let data := bytearray in
  data ← extend data (pack pf "<f" [PyFloat (PyFloat.literal 314159 (-5))]);
  write_binary "unions/float_value.bin" data.

Definition generate_unions_bytes : io unit :=
  let data := bytearray in
  data ← extend_ints data [0xDE; 0xAD; 0xBE; 0xEF];
  write_binary "unions/bytes.bin" data.

Definition main : io unit :=
  print "Generating binary test data..." ;;
  print EmptyString ;;
  print "Arrays:" ;;
  generate_arrays_simple ;;
  generate_arrays_zeros ;;
  print EmptyString ;;
  print "Structs:" ;;
  generate_structs_simple ;;
  generate_structs_rectangle ;;
  print EmptyString ;;
  print "Enums:" ;;
  generate_enums_none ;;
  generate_enums_value ;;
  generate_enums_pair ;;
  print EmptyString ;;
  print "Unions:" ;;
  generate_unions_int ;;
  generate_unions_float ;;
  generate_unions_bytes ;;
  print EmptyString ;;
  print "All binary test data generated successfully!".

End Script.

End GenerateTestData.


(** ** [tools/generate_primitive_test_binaries.py] *)

Module GeneratePrimitives.
Import Py PyStruct Os.
Local Open Scope py_scope.

Section Script.
Context `{Pathlib}.
Variable pf : platform.

(** [write_binary(filename, u8, u16, u32, u64, i8, i16, i32, i64, f32, f64)].
    Packing may raise; [os.makedirs] and [open] are taken to succeed (an
    [OSError], as for an empty [filename] or one in a missing directory, is
    not modelled). *)
Definition write_binary (filename : string)
    (u8 u16 u32 u64 i8 i16 i32 i64 f32 f64 : pyval) : io string :=
  data ← evaluate (pack pf "<BHIQbhiqfd"
                     [u8; u16; u32; u64; i8; i16; i32; i64; f32; f64]);
  let output_dir := "tests/compliance_tests/binary_data/primitives" in
  emit (EvMkdir (path_of_str output_dir)) ;;
  let filepath := os_path_join output_dir filename in
  emit (EvWrite (path_of_str filepath) data) ;;
  print ("Created " ++ filepath ++ " (" ++ pretty (length data) ++ " bytes)") ;;
  mret filepath.

Definition zero : pyval := PyFloat (PyFloat.literal 0 (-1)).   (* 0.0 *)

Definition main : io unit :=
  (* All zeros *)
  write_binary "all_zeros.bin"
    (PyInt 0) (PyInt 0) (PyInt 0) (PyInt 0)
    (PyInt 0) (PyInt 0) (PyInt 0) (PyInt 0)
    zero zero ;;
  (* All max values (for unsigned/positive) *)
  write_binary "all_max.bin"
    (PyInt 255)
    (PyInt 65535)
    (PyInt 4294967295)
    (PyInt 18446744073709551615)
    (PyInt 127)
    (PyInt 32767)
    (PyInt 2147483647)
    (PyInt 9223372036854775807)
    (PyFloat (PyFloat.literal 34028235 31))              (* 3.4028235e38 *)
    (PyFloat (PyFloat.literal 17976931348623157 292)) ;; (* 1.7976931348623157e308 *)
  (* All min values (for signed) *)
  write_binary "all_min_signed.bin"
    (PyInt 0)
    (PyInt 0)
    (PyInt 0)
    (PyInt 0)
    (PyInt (-128))
    (PyInt (-32768))
    (PyInt (-2147483648))
    (PyInt (-9223372036854775808))
    (PyFloat (PyFloat.neg (PyFloat.literal 34028235 31)))
    (PyFloat (PyFloat.neg (PyFloat.literal 17976931348623157 292))) ;;
  (* Common values *)
  write_binary "common_values.bin"
    (PyInt 42)
    (PyInt 1000)
    (PyInt 0x12345678)
    (PyInt 0x123456789ABCDEF0)
    (PyInt (-42))
    (PyInt (-1234))
    (PyInt (-123456))
    (PyInt (-123456789))
    (PyFloat (PyFloat.literal 314159 (-5)))              (* 3.14159 *)
    (PyFloat (PyFloat.literal 2718281828459045 (-15))) ;; (* 2.718281828459045 *)
  (* Test little-endian explicitly *)
  write_binary "u32_0x12345678.bin"
    (PyInt 0)
    (PyInt 0)
    (PyInt 0x12345678)
    (PyInt 0)
    (PyInt 0) (PyInt 0) (PyInt 0) (PyInt 0)
    zero zero ;;
  (* Test u64 BigInt *)
  write_binary "u64_bigint.bin"
    (PyInt 0) (PyInt 0) (PyInt 0)
    (PyInt 0x123456789ABCDEF0)
    (PyInt 0) (PyInt 0) (PyInt 0) (PyInt 0)
    zero zero ;;
  (* Test floats *)
  write_binary "float_values.bin"
    (PyInt 0) (PyInt 0) (PyInt 0) (PyInt 0)
    (PyInt 0) (PyInt 0) (PyInt 0) (PyInt 0)
    (PyFloat (PyFloat.literal 314159265 (-8)))           (* 3.14159265 *)
    (PyFloat (PyFloat.literal 2718281828459045 (-15))) ;;
  print (String "010" "âœ“ Generated 7 primitive test binary files").

End Script.

End GeneratePrimitives.


(** ** The layout model and canonical codec of the specification

    This module follows the words of the specification (its data model and
    its canonical codec), not the generators.  It is the reference the
    generated bytes are compared with. *)

Module SpecLayout.
Import Py.

Inductive prim : Type := U8 | U16 | U32 | U64 | I8 | I16 | I32 | I64 | F32 | F64.

(** Fixed byte widths: 1, 2, 4, 8, 1, 2, 4, 8, 4, 8. *)
Definition prim_width (k : prim) : nat :=
  match k with
  | U8 | I8 => 1
  | U16 | I16 => 2
  | U32 | I32 | F32 => 4
  | U64 | I64 | F64 => 8
  end%nat.

Inductive descriptor : Type :=
| Primitive (kind : prim)
| FixedArray (elem : descriptor) (count : nat)
| Struct (fields : list (string * descriptor))
| Enum (variants : list (string * Z * option descriptor))
| Union (variants : list (string * descriptor)).

(** Semantic values.  A union value is the value of its active variant;
    which variant is active is context, never part of the value. *)
Inductive value : Type :=
| VInt (z : Z)
| VFloat (x : spec_float)
| VArray (items : list value)
| VStruct (fields : list (string * value))
| VEnum (variant : string) (payload : option value)
| VUnion (active_value : value).

Inductive codec_error : Type :=
| UnresolvedVariant
| UnknownField
| ArityMismatch
| MissingField
| UnknownVariant
| MissingVariantContext
| IllTyped.          (* the value does not fit the descriptor *)

Definition codec (A : Type) : Type := codec_error + A.

Definition cbind {A B : Type} (r : codec A) (k : A -> codec B) : codec B :=
  match r with
  | inl e => inl e
  | inr a => k a
  end.

(** Byte [i] of the little-endian encoding of [z] on [w] bytes is
    [(z mod 2 ^ (8 * w)) / 2 ^ (8 * i) mod 256]: the least significant
    byte comes first, and a negative [z] is represented by its two's
    complement [z + 2 ^ (8 * w)]. *)
Definition little_endian (w : nat) (z : Z) : list byte :=
  map (fun i => byte_of_Z ((z mod 2 ^ (8 * Z.of_nat w)) / 2 ^ (8 * Z.of_nat i)))
      (seq 0 w).

Definition fits (k : prim) (z : Z) : bool :=
  match k with
  | U8 | U16 | U32 | U64 =>
      (0 <=? z) && (z <? 2 ^ (8 * Z.of_nat (prim_width k)))
  | I8 | I16 | I32 | I64 =>
      (- 2 ^ (8 * Z.of_nat (prim_width k) - 1) <=? z)
      && (z <? 2 ^ (8 * Z.of_nat (prim_width k) - 1))
  | F32 | F64 => false
  end.

Definition encode_prim (k : prim) (v : value) : codec (list byte) :=
  match k, v with
  | F32, VFloat x => inr (little_endian 4 (PyFloat.bits32 (PyFloat.to_single x)))
  | F64, VFloat x => inr (little_endian 8 (PyFloat.bits64 x))
  | _, VInt z =>
      if fits k z then inr (little_endian (prim_width k) z) else inl IllTyped
  | _, _ => inl IllTyped
  end.

Fixpoint assoc {A : Type} (name : string) (l : list (string * A)) : option A :=
  match l with
  | [] => None
  | (n, a) :: rest => if String.eqb n name then Some a else assoc name rest
  end.

(** [encode descriptor active_variant value] *)
Fixpoint encode (d : descriptor) (active_variant : option string) (v : value)
  : codec (list byte) :=
  match d, v with
  | Primitive k, _ => encode_prim k v
  | FixedArray elem count, VArray items =>
      if Nat.eqb (length items) count
      then
        (fix each (xs : list value) : codec (list byte) :=
           match xs with
           | [] => inr []
           | x :: rest =>
               cbind (encode elem active_variant x) (fun b =>
               cbind (each rest) (fun bs => inr (b ++ bs)%list))
           end) items
      else inl ArityMismatch
  | Struct fields, VStruct fvs =>
      (fix each (fs : list (string * descriptor)) : codec (list byte) :=
         match fs with
         | [] => inr []
         | (name, fd) :: rest =>
             match assoc name fvs with
             | None => inl MissingField
             | Some fv =>
                 cbind (encode fd active_variant fv) (fun b =>
                 cbind (each rest) (fun bs => inr (b ++ bs)%list))
             end
         end) fields
  | Enum variants, VEnum name payload =>
      (fix find (vs : list (string * Z * option descriptor)) : codec (list byte) :=
         match vs with
         | [] => inl UnknownVariant
         | (n, tag, pd) :: rest =>
             if String.eqb n name
             then
               match pd, payload with
               | None, None => inr [byte_of_Z tag]
               | Some pdesc, Some pv =>
                   cbind (encode pdesc active_variant pv) (fun b =>
                     inr (byte_of_Z tag :: b))
               | _, _ => inl IllTyped
               end
             else find rest
         end) variants
  | Union variants, VUnion av =>
      match active_variant with
      | None => inl MissingVariantContext
      | Some name =>
          (fix find (vs : list (string * descriptor)) : codec (list byte) :=
             match vs with
             | [] => inl UnknownVariant
             | (n, vd) :: rest =>
                 if String.eqb n name then encode vd active_variant av
                 else find rest
             end) variants
      end
  | _, _ => inl IllTyped
  end.

(** [size_of descriptor variant_context]: an enum or a union has a size
    only for a given variant. *)
Fixpoint size_of (d : descriptor) (variant_context : option string) : codec nat :=
  match d with
  | Primitive k => inr (prim_width k)
  | FixedArray elem count =>
      cbind (size_of elem variant_context) (fun n => inr (n * count)%nat)
  | Struct fields =>
      (fix total (fs : list (string * descriptor)) : codec nat :=
         match fs with
         | [] => inr O
         | (_, fd) :: rest =>
             cbind (size_of fd variant_context) (fun n =>
             cbind (total rest) (fun m => inr (n + m)%nat))
         end) fields
  | Enum variants =>
      match variant_context with
      | None => inl UnresolvedVariant
      | Some name =>
          (fix find (vs : list (string * Z * option descriptor)) : codec nat :=
             match vs with
             | [] => inl UnknownVariant
             | (n, _, pd) :: rest =>
                 if String.eqb n name
                 then
                   match pd with
                   | None => inr 1%nat
                   | Some pdesc =>
                       cbind (size_of pdesc variant_context) (fun k => inr (1 + k)%nat)
                   end
                 else find rest
             end) variants
      end
  | Union variants =>
      match variant_context with
      | None => inl UnresolvedVariant
      | Some name =>
          (fix find (vs : list (string * descriptor)) : codec nat :=
             match vs with
             | [] => inl UnknownVariant
             | (n, vd) :: rest =>
                 if String.eqb n name then size_of vd variant_context
                 else find rest
             end) variants
      end
  end.

(** The sizes of the fields of a struct, in declaration order. *)
Fixpoint field_sizes (fields : list (string * descriptor)) : codec (list nat) :=
  match fields with
  | [] => inr []
  | (_, fd) :: rest =>
      cbind (size_of fd None) (fun n =>
      cbind (field_sizes rest) (fun ns => inr (n :: ns)))
  end.

(** Offsets under dense packing: each field starts where the previous
    one ends, the first at [start]. *)
Fixpoint offsets_from (start : nat) (sizes : list nat) : list nat :=
  match sizes with
  | [] => []
  | n :: rest => start :: offsets_from (start + n) rest
  end.

Definition sum_sizes (sizes : list nat) : nat := fold_right Nat.add O sizes.

(** The primitive leaves of a value in encoding order: each is a
    primitive kind with its value; an enum contributes its tag as a [U8]
    leaf, a union contributes only the leaves of its active variant. *)
Fixpoint flatten (d : descriptor) (active_variant : option string) (v : value)
  : codec (list (prim * value)) :=
  match d, v with
  | Primitive k, _ => inr [(k, v)]
  | FixedArray elem count, VArray items =>
      if Nat.eqb (length items) count
      then
        (fix each (xs : list value) : codec (list (prim * value)) :=
           match xs with
           | [] => inr []
           | x :: rest =>
               cbind (flatten elem active_variant x) (fun b =>
               cbind (each rest) (fun bs => inr (b ++ bs)%list))
           end) items
      else inl ArityMismatch
  | Struct fields, VStruct fvs =>
      (fix each (fs : list (string * descriptor)) : codec (list (prim * value)) :=
         match fs with
         | [] => inr []
         | (name, fd) :: rest =>
             match assoc name fvs with
             | None => inl MissingField
             | Some fv =>
                 cbind (flatten fd active_variant fv) (fun b =>
                 cbind (each rest) (fun bs => inr (b ++ bs)%list))
             end
         end) fields
  | Enum variants, VEnum name payload =>
      (fix find (vs : list (string * Z * option descriptor))
         : codec (list (prim * value)) :=
         match vs with
         | [] => inl UnknownVariant
         | (n, tag, pd) :: rest =>
             if String.eqb n name
             then
               match pd, payload with
               | None, None => inr [(U8, VInt tag)]
               | Some pdesc, Some pv =>
                   cbind (flatten pdesc active_variant pv) (fun b =>
                     inr ((U8, VInt tag) :: b))
               | _, _ => inl IllTyped
               end
             else find rest
         end) variants
  | Union variants, VUnion av =>
      match active_variant with
      | None => inl MissingVariantContext
      | Some name =>
          (fix find (vs : list (string * descriptor)) : codec (list (prim * value)) :=
             match vs with
             | [] => inl UnknownVariant
             | (n, vd) :: rest =>
                 if String.eqb n name then flatten vd active_variant av
                 else find rest
             end) variants
      end
  | _, _ => inl IllTyped
  end.

(** The leaves with the offset each has under dense packing. *)
Definition placed_leaves (ls : list (prim * value)) : list (nat * (prim * value)) :=
  combine (offsets_from 0 (map (fun l => prim_width (fst l)) ls)) ls.

(** A leaf sits little-endian at its offset in [data]: an integer of
    width [w] as its [w] bytes, least significant first. *)
Definition leaf_in_place (data : list byte) (l : nat * (prim * value)) : Prop :=
  encode_prim (fst (snd l)) (snd (snd l))
  = inr (slice (fst l) (prim_width (fst (snd l))) data).

(** A test vector of the corpus. *)
Record test_vector : Type := {
  case_name : string;
  descriptor_of : descriptor;
  semantic_value : value;
  active_variant : option string
}.

Definition canonical_bytes (tv : test_vector) : codec (list byte) :=
  encode (descriptor_of tv) (active_variant tv) (semantic_value tv).

End SpecLayout.


(** ** The corpus the generators author

    The type declarations and semantic values the two scripts state in
    their comments and docstrings, one test vector per fixture file. *)

Module Corpus.
Import SpecLayout.

Definition FixedArrays : descriptor :=
  Struct [("u8_array", FixedArray (Primitive U8) 4);
          ("u16_array", FixedArray (Primitive U16) 3);
          ("u32_array", FixedArray (Primitive U32) 2);
          ("i32_array", FixedArray (Primitive I32) 5)].

Definition SimpleStruct_fields : list (string * descriptor) :=
  [("id", Primitive U64); ("flags", Primitive U8); ("value", Primitive U16)].

Definition SimpleStruct : descriptor := Struct SimpleStruct_fields.

Definition Point2D : descriptor :=
  Struct [("x", Primitive I32); ("y", Primitive I32)].

Definition Rectangle : descriptor :=
  Struct [("top_left", Point2D); ("bottom_right", Point2D);
          ("color", Primitive U32)].

Definition SimpleEnum : descriptor :=
  Enum [("None", 0, None);
        ("Value", 1, Some (Primitive U32));
        ("Pair", 2, Some (Struct [("first", Primitive U16);
                                  ("second", Primitive U16)]))].

Definition SimpleUnion_variants : list (string * descriptor) :=
  [("int_value", Primitive I32);
   ("float_value", Primitive F32);
   ("bytes", FixedArray (Primitive U8) 4)].

Definition SimpleUnion : descriptor := Union SimpleUnion_variants.

Definition AllPrimitives_fields : list (string * descriptor) :=
  [("u8_val", Primitive U8); ("u16_val", Primitive U16);
   ("u32_val", Primitive U32); ("u64_val", Primitive U64);
   ("i8_val", Primitive I8); ("i16_val", Primitive I16);
   ("i32_val", Primitive I32); ("i64_val", Primitive I64);
   ("f32_val", Primitive F32); ("f64_val", Primitive F64)].

Definition AllPrimitives : descriptor := Struct AllPrimitives_fields.

Definition ints (zs : list Z) : value := VArray (map VInt zs).

Definition point (x y : Z) : value := VStruct [("x", VInt x); ("y", VInt y)].

Definition arrays_simple : test_vector :=
  {| case_name := "arrays/simple.bin";
     descriptor_of := FixedArrays;
     semantic_value :=
       VStruct [("u8_array", ints [1; 2; 3; 4]);
                ("u16_array", ints [10; 20; 30]);
                ("u32_array", ints [100; 200]);
                ("i32_array", ints [-1; 0; 1; -100; 100])];
     active_variant := None |}.

Definition arrays_all_zeros : test_vector :=
  {| case_name := "arrays/all_zeros.bin";
     descriptor_of := FixedArrays;
     semantic_value :=
       VStruct [("u8_array", ints [0; 0; 0; 0]);
                ("u16_array", ints [0; 0; 0]);
                ("u32_array", ints [0; 0]);
                ("i32_array", ints [0; 0; 0; 0; 0])];
     active_variant := None |}.

Definition structs_simple : test_vector :=
  {| case_name := "structs/simple.bin";
     descriptor_of := SimpleStruct;
     semantic_value :=
       VStruct [("id", VInt 12345); ("flags", VInt 0x42); ("value", VInt 9999)];
     active_variant := None |}.

Definition structs_rectangle : test_vector :=
  {| case_name := "structs/rectangle.bin";
     descriptor_of := Rectangle;
     semantic_value :=
       VStruct [("top_left", point 10 20);
                ("bottom_right", point 100 80);
                ("color", VInt 0xFF0000)];
     active_variant := None |}.

Definition enums_none : test_vector :=
  {| case_name := "enums/none.bin";
     descriptor_of := SimpleEnum;
     semantic_value := VEnum "None" None;
     active_variant := None |}.

Definition enums_value : test_vector :=
  {| case_name := "enums/value.bin";
     descriptor_of := SimpleEnum;
     semantic_value := VEnum "Value" (Some (VInt 42));
     active_variant := None |}.

Definition enums_pair : test_vector :=
  {| case_name := "enums/pair.bin";
     descriptor_of := SimpleEnum;
     semantic_value :=
       VEnum "Pair" (Some (VStruct [("first", VInt 100); ("second", VInt 200)]));
     active_variant := None |}.

Definition unions_int : test_vector :=
  {| case_name := "unions/int_value.bin";
     descriptor_of := SimpleUnion;
     semantic_value := VUnion (VInt (-42));
     active_variant := Some "int_value" |}.

Definition unions_float : test_vector :=
  {| case_name := "unions/float_value.bin";
     descriptor_of := SimpleUnion;
     semantic_value := VUnion (VFloat (PyFloat.literal 314159 (-5)));
     active_variant := Some "float_value" |}.

Definition unions_bytes : test_vector :=
  {| case_name := "unions/bytes.bin";
     descriptor_of := SimpleUnion;
     semantic_value := VUnion (ints [0xDE; 0xAD; 0xBE; 0xEF]);
     active_variant := Some "bytes" |}.

(** The vectors of [generate_test_data.py], in the order it writes them. *)
Definition test_data_vectors : list test_vector :=
  [arrays_simple; arrays_all_zeros;
   structs_simple; structs_rectangle;
   enums_none; enums_value; enums_pair;
   unions_int; unions_float; unions_bytes].

Definition all_primitives (name : string)
    (u8 u16 u32 u64 i8 i16 i32 i64 : Z) (f32 f64 : spec_float) : test_vector :=
  {| case_name := name;
     descriptor_of := AllPrimitives;
     semantic_value :=
       VStruct [("u8_val", VInt u8); ("u16_val", VInt u16);
                ("u32_val", VInt u32); ("u64_val", VInt u64);
                ("i8_val", VInt i8); ("i16_val", VInt i16);
                ("i32_val", VInt i32); ("i64_val", VInt i64);
                ("f32_val", VFloat f32); ("f64_val", VFloat f64)];
     active_variant := None |}.

Definition f_zero : spec_float := S754_zero false.
Definition f32_max : spec_float := PyFloat.literal 34028235 31.
Definition f64_max : spec_float := PyFloat.literal 17976931348623157 292.
Definition f_pi : spec_float := PyFloat.literal 314159 (-5).
Definition f_pi' : spec_float := PyFloat.literal 314159265 (-8).
Definition f_e : spec_float := PyFloat.literal 2718281828459045 (-15).

(** The vectors of [generate_primitive_test_binaries.py], in the order it
    writes them. *)
Definition primitive_vectors : list test_vector :=
  [all_primitives "all_zeros.bin" 0 0 0 0 0 0 0 0 f_zero f_zero;
   all_primitives "all_max.bin"
     255 65535 4294967295 18446744073709551615
     127 32767 2147483647 9223372036854775807 f32_max f64_max;
   all_primitives "all_min_signed.bin"
     0 0 0 0
     (-128) (-32768) (-2147483648) (-9223372036854775808)
     (PyFloat.neg f32_max) (PyFloat.neg f64_max);
   all_primitives "common_values.bin"
     42 1000 0x12345678 0x123456789ABCDEF0
     (-42) (-1234) (-123456) (-123456789) f_pi f_e;
   all_primitives "u32_0x12345678.bin" 0 0 0x12345678 0 0 0 0 0 f_zero f_zero;
   all_primitives "u64_bigint.bin" 0 0 0 0x123456789ABCDEF0 0 0 0 0 f_zero f_zero;
   all_primitives "float_values.bin" 0 0 0 0 0 0 0 0 f_pi' f_e].

End Corpus.


(** ** Programs that talk to the operating system *)

Module Proc.
Import Py Os.

(** The operating system the driver runs on: [W] is its state.
    [path_exists p w] is [p.exists()] in state [w], taken to answer (a path
    the system refuses to look up is not modelled);
    [subprocess_run cmd cwd capture_output w] is what
    [subprocess.run(cmd, cwd=cwd, capture_output=capture_output, text=True)]
    does in state [w]: it raises (the program cannot be started) or returns
    a [CompletedProcess], and leaves the system in a new state. *)
Class System (W : Type) `{Pathlib} : Type := {
  path_exists : Path -> W -> bool;
  subprocess_run :
    list string -> option Path -> bool -> W -> result CompletedProcess * W
}.

(** How a computation ends: it returns, it leaves through [sys.exit],
    or it raises. *)
Inductive outcome (A : Type) : Type :=
| Returned (a : A)
| Exited (code : Z)
| Raised (e : exn).
Arguments Returned {A} a.
Arguments Exited {A} code.
Arguments Raised {A} e.

Definition proc (W : Type) `{Pathlib} (A : Type) : Type :=
  W -> list event * outcome A * W.

#[global] Instance proc_ret (W : Type) `{Pathlib} : MRet (proc W) :=
  fun A a w => ([], Returned a, w).

#[global] Instance proc_bind (W : Type) `{Pathlib} : MBind (proc W) :=
  fun A B k m w =>
    match m w with
    | (t, Returned a, w') =>
        let '(t', o, w'') := k a w' in ((t ++ t')%list, o, w'')
    | (t, Exited code, w') => (t, Exited code, w')
    | (t, Raised e, w') => (t, Raised e, w')
    end.

Section Operations.
Context {W : Type} `{System W}.

(** [print(line)] *)
Definition print (line : string) : proc W unit :=
  fun w => ([EvPrint line], Returned tt, w).

(** [p.exists()] *)
Definition exists_ (p : Path) : proc W bool :=
  fun w => ([], Returned (path_exists p w), w).

(** [subprocess.run(cmd, cwd=cwd, capture_output=capture_output, text=True)] *)
Definition run (cmd : list string) (cwd : option Path) (capture_output : bool)
  : proc W CompletedProcess :=
  fun w =>
    let '(res, w') := subprocess_run cmd cwd capture_output w in
    ([EvRun cmd cwd res],
     match res with
     | inl e => Raised e
     | inr cp => Returned cp
     end,
     w').

(** [sys.exit(code)] *)
Definition sys_exit {A : Type} (code : Z) : proc W A :=
  fun w => ([], Exited code, w).

(** [if cond: body] *)
Definition when (cond : bool) (body : proc W unit) : proc W unit :=
  if cond then body else mret tt.

End Operations.

(** The exit status of the Python process whose main program ended with
    outcome [o]: 0 when it ran to its end, the argument of [sys.exit],
    and 1 when an exception was not caught. *)
Definition exit_status {A : Type} (o : outcome A) : Z :=
  match o with
  | Returned _ => 0
  | Exited code => code
  | Raised _ => 1
  end.

Section Runs.
Context {W : Type} `{Pathlib} {A : Type}.

Definition trace (r : list event * outcome A * W) : list event := fst (fst r).
Definition outcome_of (r : list event * outcome A * W) : outcome A := snd (fst r).
Definition exit_code (r : list event * outcome A * W) : Z :=
  exit_status (outcome_of r).
Definition final_state (r : list event * outcome A * W) : W := snd r.

End Runs.

End Proc.

(** ** [scripts/run_ir_parity_checks.py] *)

Module RunIrParityChecks.
Import Py Os Proc.
Local Open Scope py_scope.

(** The parsed command line, [args = parser.parse_args()]. *)
Record Namespace : Type := {
  verbose : bool;              (* --verbose, -v *)
  test_dir : option string;    (* --test-dir DIR *)
  output : option string;      (* --output FILE, -o FILE *)
  build_only : bool            (* --build-only *)
}.

Definition newline : string := String "010" EmptyString.

Section Script.
Context {W : Type} `{System W}.
(** [Path(__file__).parent.resolve()] *)
Variable script_dir : Path.

Local Notation "p / s" := (path_div_str p s).

Definition find_project_root : Path := path_parent script_dir.

Definition find_compliance_tests_dir (project_root : Path) : proc W Path :=
  let tests_dir := project_root / "tests" / "compliance_tests" / "test_cases" in
  found ← exists_ tests_dir;
  if found then mret tests_dir
  else mret (project_root / "tests").

Definition harness_dir (project_root : Path) : Path :=
  project_root / "tests" / "compliance_harness_rust".

(** The [cargo] command line of [build_compliance_harness]. *)
Definition build_cmd (verbose : bool) : list string :=
  let cmd := ["cargo"; "build"; "--release"] in
  if negb verbose then (cmd ++ ["--quiet"])%list else cmd.

Definition build_compliance_harness (project_root : Path) (verbose : bool)
  : proc W bool :=
  let harness_dir := harness_dir project_root in
  print "Building compliance harness..." ;;
  let cmd := build_cmd verbose in
  result ← run cmd (Some harness_dir) (negb verbose);
  if negb (returncode result =? 0)
  then
    print "Failed to build compliance harness:" ;;
    when (negb verbose && truthy_str (stderr result))
         (print (default EmptyString (stderr result))) ;;
    mret false
  else
    print "Compliance harness built successfully." ;;
    mret true.

Definition harness_binary (project_root : Path) : Path :=
  project_root / "tests" / "compliance_harness_rust"
               / "target" / "release" / "compliance_harness".

(** The harness command line of [run_parity_checks]. *)
Definition parity_cmd (project_root test_dir : Path) (verbose : bool)
    (output_file : option string) : list string :=
  let cmd := [path_str (harness_binary project_root); path_str test_dir; "--parity"] in
  let cmd := if verbose then (cmd ++ ["--verbose"])%list else cmd in
  let cmd :=
    if truthy_str output_file
    then (cmd ++ ["--output"; default EmptyString output_file])%list
    else cmd in
  cmd.

Definition run_parity_checks (project_root test_dir : Path) (verbose : bool)
    (output_file : option string) : proc W bool :=
  let harness_binary := harness_binary project_root in
  found ← exists_ harness_binary;
  if negb found
  then
    print ("Compliance harness binary not found at " ++ path_str harness_binary) ;;
    mret false
  else
    let cmd := parity_cmd project_root test_dir verbose output_file in
    print (newline ++ "Running parity checks on " ++ path_str test_dir ++ "...") ;;
    print ("Command: " ++ String.concat " " cmd ++ newline) ;;
    result ← run cmd None false;
    mret (returncode result =? 0).

(** The test directory [main] settles on: [--test-dir], taken relative
    to the project root unless absolute, or else the default one. *)
Definition determine_test_dir (project_root : Path) (args : Namespace)
  : proc W Path :=
  if truthy_str (test_dir args)
  then
    let test_dir := path_of_str (default EmptyString (test_dir args)) in
    if negb (path_is_absolute test_dir)
    then mret (path_div project_root test_dir)
    else mret test_dir
  else find_compliance_tests_dir project_root.

(** [main], from the parsed command line on (lines 119 to 152);
    [CommandLine.main] below puts [parser.parse_args()] in front. *)
Definition main (args : Namespace) : proc W unit :=
  let project_root := find_project_root in
  print ("Project root: " ++ path_str project_root) ;;
  (* Build the harness *)
  built ← build_compliance_harness project_root (verbose args);
  when (negb built) (sys_exit 1) ;;
  when (build_only args)
       (print "Build completed (--build-only specified)" ;; sys_exit 0) ;;
  (* Determine test directory *)
  test_dir ← determine_test_dir project_root args;
  found ← exists_ test_dir;
  when (negb found)
       (print ("Test directory not found: " ++ path_str test_dir) ;; sys_exit 1) ;;
  print ("Test directory: " ++ path_str test_dir) ;;
  (* Run parity checks *)
  success ← run_parity_checks project_root test_dir (verbose args) (output args);
  if success
  then print (newline ++ "=== All parity checks passed! ===") ;; sys_exit 0
  else print (newline ++ "=== Parity checks failed! ===") ;; sys_exit 1.

End Script.

End RunIrParityChecks.

(** ** What is claimed of the fixtures *)

Module Fixtures.
Import Py Os SpecLayout.

Section Named.
Context `{Pathlib}.

(** The written file [w] is the fixture of vector [tv] under [base]. *)
Definition fixture_of (base : Path) (tv : test_vector) (w : Path * list byte)
  : Prop :=
  fst w = path_div_str base (case_name tv).

End Named.

(** Every primitive leaf of the vector sits at its dense offset in [data],
    in the little-endian encoding of the specification. *)
Definition leaves_in_place (tv : test_vector) (data : list byte) : Prop :=
  exists ls,
    flatten (descriptor_of tv) (active_variant tv) (semantic_value tv) = inr ls
    /\ Forall (leaf_in_place data) (placed_leaves ls).

(** The field [name : fd], of size [size], occupies
    [data[off : off + size]]. *)
Definition field_in_place (fvs : list (string * value)) (data : list byte)
    (f : nat * nat * (string * descriptor)) : Prop :=
  exists fv,
    assoc (fst (snd f)) fvs = Some fv
    /\ encode (snd (snd f)) None fv = inr (slice (fst (fst f)) (snd (fst f)) data).

(** Dense packing of a struct fixture: its length is the sum of the sizes
    of its fields, and each field occupies the bytes from the sum of the
    sizes of the fields before it. *)
Definition densely_packed (tv : test_vector) (data : list byte) : Prop :=
  match descriptor_of tv, semantic_value tv with
  | Struct fields, VStruct fvs =>
      exists sizes,
        field_sizes fields = inr sizes
        /\ length data = sum_sizes sizes
        /\ Forall (field_in_place fvs data)
             (combine (combine (offsets_from 0 sizes) sizes) fields)
  | _, _ => False
  end.

(** The written file [w] is the [AllPrimitives] fixture of vector [tv]. *)
Definition primitive_fixture_of `{Pathlib} (tv : test_vector) (w : Path * list byte)
  : Prop :=
  fst w = path_of_str (os_path_join "tests/compliance_tests/binary_data/primitives"
                                    (case_name tv)).

(** A union fixture holds the bytes of its active variant and nothing
    else: [data] is the encoding of the value under the descriptor of the
    active variant, and is as long as that variant is. *)
Definition holds_active_variant (tv : test_vector) (data : list byte) : Prop :=
  match descriptor_of tv, semantic_value tv, active_variant tv with
  | Union variants, VUnion av, Some name =>
      exists vd,
        assoc name variants = Some vd
        /\ encode vd None av = inr data
        /\ size_of vd None = inr (length data)
  | _, _, _ => False
  end.

(** The elements [zs] of an array of kind [k], one after the other, each in
    its little-endian encoding: no count, no header. *)
Definition elements_of (k : prim) (zs : list Z) : list byte :=
  concat (map (little_endian (prim_width k)) zs).

(** The primitive kind each format character of [struct] writes. *)
Definition prim_of_code (k : PyStruct.fmt_code) : prim :=
  match k with
  | PyStruct.c_B => U8 | PyStruct.c_H => U16
  | PyStruct.c_I => U32 | PyStruct.c_Q => U64
  | PyStruct.c_b => I8 | PyStruct.c_h => I16
  | PyStruct.c_i => I32 | PyStruct.c_q => I64
  | PyStruct.c_f => F32 | PyStruct.c_d => F64
  end.

(** The format characters of integers. *)
Definition int_codes : list PyStruct.fmt_code :=
  [PyStruct.c_B; PyStruct.c_H; PyStruct.c_I; PyStruct.c_Q;
   PyStruct.c_b; PyStruct.c_h; PyStruct.c_i; PyStruct.c_q].

(** Packing the integer [z] under ['<'] gives the little-endian bytes of
    the specification, or fails when [z] does not fit. *)
Definition packs_little_endian (k : PyStruct.fmt_code) : Prop :=
  forall z : Z,
    PyStruct.pack_item PyStruct.LittleEndian k (PyInt z)
    = if fits (prim_of_code k) z
      then ok (little_endian (PyStruct.code_size k) z)
      else raise StructError.

(** The content of each file of [generate_test_data.py], by its name under
    [binary_data]. *)
Definition test_data_files : list (string * list byte) :=
  [("arrays/simple.bin",
    [x01; x02; x03; x04; x0a; x00; x14; x00; x1e; x00;
     x64; x00; x00; x00; xc8; x00; x00; x00;
     xff; xff; xff; xff; x00; x00; x00; x00; x01; x00; x00; x00;
     x9c; xff; xff; xff; x64; x00; x00; x00]);
   ("arrays/all_zeros.bin", repeat x00 38);
   ("structs/simple.bin",
    [x39; x30; x00; x00; x00; x00; x00; x00; x42; x0f; x27]);
   ("structs/rectangle.bin",
    [x0a; x00; x00; x00; x14; x00; x00; x00;
     x64; x00; x00; x00; x50; x00; x00; x00;
     x00; x00; xff; x00]);
   ("enums/none.bin", [x00]);
   ("enums/value.bin", [x01; x2a; x00; x00; x00]);
   ("enums/pair.bin", [x02; x64; x00; xc8; x00]);
   ("unions/int_value.bin", [xd6; xff; xff; xff]);
   ("unions/float_value.bin", [xd0; x0f; x49; x40]);
   ("unions/bytes.bin", [xde; xad; xbe; xef])].

(** The content of each file of [generate_primitive_test_binaries.py], by
    its name under [tests/compliance_tests/binary_data/primitives]. *)
Definition primitive_files : list (string * list byte) :=
  [("all_zeros.bin", repeat x00 42);
   ("all_max.bin",
    [xff; xff; xff; xff; xff; xff; xff;
     xff; xff; xff; xff; xff; xff; xff; xff;
     x7f; xff; x7f; xff; xff; xff; x7f;
     xff; xff; xff; xff; xff; xff; xff; x7f;
     xff; xff; x7f; x7f;
     xff; xff; xff; xff; xff; xff; xef; x7f]);
   ("all_min_signed.bin",
    [x00; x00; x00; x00; x00; x00; x00;
     x00; x00; x00; x00; x00; x00; x00; x00;
     x80; x00; x80; x00; x00; x00; x80;
     x00; x00; x00; x00; x00; x00; x00; x80;
     xff; xff; x7f; xff;
     xff; xff; xff; xff; xff; xff; xef; xff]);
   ("common_values.bin",
    [x2a; xe8; x03; x78; x56; x34; x12;
     xf0; xde; xbc; x9a; x78; x56; x34; x12;
     xd6; x2e; xfb; xc0; x1d; xfe; xff;
     xeb; x32; xa4; xf8; xff; xff; xff; xff;
     xd0; x0f; x49; x40;
     x69; x57; x14; x8b; x0a; xbf; x05; x40]);
   ("u32_0x12345678.bin",
    ([x00; x00; x00; x78; x56; x34; x12] ++ repeat x00 35)%list);
   ("u64_bigint.bin",
    (repeat x00 7 ++ [xf0; xde; xbc; x9a; x78; x56; x34; x12]
       ++ repeat x00 27)%list);
   ("float_values.bin",
    (repeat x00 30 ++ [xdb; x0f; x49; x40;
                       x69; x57; x14; x8b; x0a; xbf; x05; x40])%list)].

Definition primitives_dir : string :=
  "tests/compliance_tests/binary_data/primitives".

Section Placed.
Context `{Pathlib}.

(** The files of a table, each under the path the script gives it. *)
Definition under_binary_dir (BINARY_DIR : Path) (files : list (string * list byte))
  : list (Path * list byte) :=
  map (fun f => (path_div_str BINARY_DIR (fst f), snd f)) files.

Definition under_primitives_dir (files : list (string * list byte))
  : list (Path * list byte) :=
  map (fun f => (path_of_str (os_path_join primitives_dir (fst f)), snd f)) files.

End Placed.

(** [n] runs of a program whose one run has trace [t]. *)
Fixpoint runs `{Pathlib} (n : nat) (t : list event) : list event :=
  match n with
  | O => []
  | S k => (t ++ runs k t)%list
  end.

(** The last content a trace writes under the path string [k]. *)
Fixpoint last_write `{Pathlib} (k : string) (t : list event) : option (list byte) :=
  match t with
  | [] => None
  | ev :: t' =>
      match last_write k t' with
      | Some d => Some d
      | None =>
          match ev with
          | EvWrite p d => if String.eqb (path_str p) k then Some d else None
          | _ => None
          end
      end
  end.

End Fixtures.

(** ** What is claimed of the driver *)

Module DriverRuns.
Import Py Os Proc RunIrParityChecks.
Local Open Scope py_scope.

Section Observations.
Context {W : Type} `{System W}.
Variable script_dir : Path.

Definition project_root : Path := find_project_root script_dir.

(** The build [main] attempts in state [w], and how it ends. *)
Definition build_run (args : Namespace) (w : W) : result CompletedProcess * W :=
  subprocess_run (build_cmd (verbose args)) (Some (harness_dir project_root))
                 (negb (verbose args)) w.

(** The build succeeded: [cargo] ran and returned 0. *)
Definition build_succeeded (r : result CompletedProcess) : bool :=
  match r with
  | inr cp => returncode cp =? 0
  | inl _ => false
  end.

(** The build as it shows among the processes of a trace. *)
Definition build_process (args : Namespace) (w : W)
  : list string * option Path * result CompletedProcess :=
  (build_cmd (verbose args), Some (harness_dir project_root),
   fst (build_run args w)).

(** The process [p] is a run of the compliance harness in parity mode, in
    the driver's own working directory, that ended with [res]. *)
Definition is_harness_run
    (p : list string * option Path * result CompletedProcess)
    (res : result CompletedProcess) : Prop :=
  exists dir rest,
    p = (path_str (harness_binary project_root) :: dir :: "--parity" :: rest,
         None, res).

Definition harness_invoked
    (ps : list (list string * option Path * result CompletedProcess)) : Prop :=
  exists p res, In p ps /\ is_harness_run p res.

Definition harness_returned_zero
    (ps : list (list string * option Path * result CompletedProcess)) : Prop :=
  exists p cp, In p ps /\ is_harness_run p (inr cp) /\ returncode cp = 0.

(** The exit code of the driver mirrors the harness: 0 when the harness
    ran and returned 0, and 1 in every other case. *)
Definition mirrors_harness (args : Namespace) (w : W) : Prop :=
  let r := main script_dir args w in
  (harness_returned_zero (processes_run (trace r)) -> exit_code r = 0)
  /\ (~ harness_returned_zero (processes_run (trace r)) -> exit_code r = 1).

(** The statements of [main] up to the one that determines the test
    directory; when they return, their value is the directory [main]
    then looks for. *)
Definition until_test_dir (args : Namespace) : proc W Path :=
  let project_root := find_project_root script_dir in
  print ("Project root: " ++ path_str project_root) ;;
  built ← build_compliance_harness project_root (verbose args);
  when (negb built) (sys_exit 1) ;;
  when (build_only args)
       (print "Build completed (--build-only specified)" ;; sys_exit 0) ;;
  determine_test_dir project_root args.

(** The directory [determine_test_dir] returns in state [w]. *)
Definition resolved_test_dir (args : Namespace) (w : W) : Path :=
  if truthy_str (test_dir args)
  then
    let d := path_of_str (default EmptyString (test_dir args)) in
    if path_is_absolute d then d else path_div project_root d
  else
    let tests_dir :=
      path_div_str (path_div_str (path_div_str project_root "tests")
                                 "compliance_tests") "test_cases" in
    if path_exists tests_dir w then tests_dir
    else path_div_str project_root "tests".

(** The harness run [run_parity_checks] makes in state [w] on directory [d]. *)
Definition harness_run (args : Namespace) (d : Path) (w : W)
  : result CompletedProcess * W :=
  subprocess_run (parity_cmd project_root d (verbose args) (output args))
                 None false w.

Definition harness_process (args : Namespace) (d : Path) (w : W)
  : list string * option Path * result CompletedProcess :=
  (parity_cmd project_root d (verbose args) (output args), None,
   fst (harness_run args d w)).

(** The decisions of [main], one after the other: the exit code of the
    driver and the processes it starts. *)
Definition decisions (args : Namespace) (w : W)
  : Z * list (list string * option Path * result CompletedProcess) :=
  let w1 := snd (build_run args w) in
  let d := resolved_test_dir args w1 in
  if negb (build_succeeded (fst (build_run args w)))
  then (1, [build_process args w])
  else if build_only args
  then (0, [build_process args w])
  else if negb (path_exists d w1)
  then (1, [build_process args w])
  else if negb (path_exists (harness_binary project_root) w1)
  then (1, [build_process args w])
  else
    (if build_succeeded (fst (harness_run args d w1)) then 0 else 1,
     [build_process args w; harness_process args d w1]).

(** The arguments [--verbose] and [--output FILE] of a harness command
    line. *)
Definition verbose_part (verbose : bool) : list string :=
  if verbose then ["--verbose"] else [].

Definition output_part (output_file : option string) : list string :=
  match output_file with
  | None => []
  | Some f => if String.eqb f EmptyString then [] else ["--output"; f]
  end.

(** The claim that a given output file is always passed on: whenever the
    driver was given an output file, every harness command line it starts
    ends with [--output FILE]. *)
Definition output_given_is_passed (args : Namespace) (w : W) : Prop :=
  forall (f : string) p res,
    output args = Some f ->
    In p (processes_run (trace (main script_dir args w))) ->
    is_harness_run p res ->
    exists front : list string, fst (fst p) = (front ++ ["--output"; f])%list.

End Observations.

End DriverRuns.

(** ** A concrete machine, to run the programs on *)

Module Machine.
Import Py PyStruct Os Proc RunIrParityChecks.

Fixpoint has_sep (s : string) : bool :=
  match s with
  | EmptyString => false
  | String c rest => Ascii.eqb c "/" || has_sep rest
  end.

(** Everything before the last separator. *)
Fixpoint dirname (s : string) : string :=
  match s with
  | EmptyString => EmptyString
  | String c rest => if has_sep rest then String c (dirname rest) else EmptyString
  end.

(** Paths as plain strings, joined as [posixpath] joins them. *)
#[export] Instance posix_paths : Pathlib := {|
  Path := string;
  path_of_str s := s;
  path_str p := p;
  path_div := os_path_join;
  path_parent := dirname;
  path_is_absolute := starts_with_sep
|}.

(** A little-endian machine with natural alignment. *)
Definition little_endian_machine : platform :=
  {| native_order := LittleEndian;
     native_align := fun k => Z.of_nat (code_size k) |}.

(** A big-endian machine with natural alignment. *)
Definition big_endian_machine : platform :=
  {| native_order := BigEndian;
     native_align := fun k => Z.of_nat (code_size k) |}.

(** A system whose state does not change: [cargo] returns
    [cargo_returncode], any other program returns [harness_returncode], and
    the paths that exist are those of [existing]. *)
Record machine : Type := {
  cargo_returncode : Z;
  harness_returncode : Z;
  existing : list string
}.

Definition completed (code : Z) (capture_output : bool) : CompletedProcess :=
  {| returncode := code;
     stderr := if capture_output then Some EmptyString else None |}.

#[export] Instance machine_system : System machine := {|
  path_exists p w := existsb (String.eqb p) (existing w);
  subprocess_run cmd cwd capture_output w :=
    match cmd with
    | [] => (raise ValueError, w)
    | prog :: _ =>
        if String.eqb prog "cargo"
        then (ok (completed (cargo_returncode w) capture_output), w)
        else (ok (completed (harness_returncode w) capture_output), w)
    end
|}.

Definition scripts : @Path posix_paths := "/repo/abi/abi_gen/scripts".

Definition tests : @Path posix_paths := "/repo/abi/abi_gen/tests".

Definition built_harness : string :=
  "/repo/abi/abi_gen/tests/compliance_harness_rust/target/release/compliance_harness".

Definition test_cases : string :=
  "/repo/abi/abi_gen/tests/compliance_tests/test_cases".

(** The harness builds and passes. *)
Definition all_good : machine :=
  {| cargo_returncode := 0; harness_returncode := 0;
     existing := [built_harness; test_cases] |}.

(** The harness builds and reports a failure. *)
Definition parity_fails : machine :=
  {| cargo_returncode := 0; harness_returncode := 1;
     existing := [built_harness; test_cases] |}.

(** The harness does not build. *)
Definition build_fails : machine :=
  {| cargo_returncode := 101; harness_returncode := 0; existing := [] |}.

(** The harness builds, but there is no test directory. *)
Definition no_test_cases : machine :=
  {| cargo_returncode := 0; harness_returncode := 0;
     existing := [built_harness] |}.

Definition plain_args : Namespace :=
  {| verbose := false; test_dir := None; output := None; build_only := false |}.

Definition build_only_args : Namespace :=
  {| verbose := false; test_dir := None; output := None; build_only := true |}.

Definition full_args : Namespace :=
  {| verbose := true; test_dir := Some "cases"; output := Some "report.json";
     build_only := false |}.

End Machine.


(** ** Reading a fixture back *)

Module Readback.
Import Py SpecLayout.

(** [int.from_bytes(bs, 'little')] *)
Definition le_decode (bs : list byte) : Z :=
  fold_right (fun b acc => Z_of_byte b + 256 * acc) 0 bs.

(** The signed reading of an unsigned [u] on [w] bytes
    ([int.from_bytes(bs, 'little', signed=True)]). *)
Definition to_signed (w : nat) (u : Z) : Z :=
  if u <? 2 ^ (8 * Z.of_nat w - 1) then u else u - 2 ^ (8 * Z.of_nat w).

(** A finite binary64 value that rounds to a binary32 infinity: what
    ['f'] refuses to pack. *)
Definition single_overflows (x : spec_float) : bool :=
  PyFloat.is_infinity (PyFloat.to_single x) && negb (PyFloat.is_infinity x).

(** The eight integers of an [AllPrimitives] value are each in the range
    of their field. *)
Definition ints_fit (u8 u16 u32 u64 i8 i16 i32 i64 : Z) : bool :=
  fits U8 u8 && fits U16 u16 && fits U32 u32 && fits U64 u64
  && fits I8 i8 && fits I16 i16 && fits I32 i32 && fits I64 i64.

(** The 42 bytes of an [AllPrimitives] value, field after field. *)
Definition all_primitives_bytes (u8 u16 u32 u64 i8 i16 i32 i64 : Z)
    (f32 f64 : spec_float) : list byte :=
  (le_bytes 1 u8 ++ le_bytes 2 u16 ++ le_bytes 4 u32 ++ le_bytes 8 u64
     ++ le_bytes 1 i8 ++ le_bytes 2 i16 ++ le_bytes 4 i32 ++ le_bytes 8 i64
     ++ le_bytes 4 (PyFloat.bits32 (PyFloat.to_single f32))
     ++ le_bytes 8 (PyFloat.bits64 f64))%list.

Section Traces.
Context `{Os.Pathlib}.

(** The lines a trace prints, in order. *)
Fixpoint printed (t : list Os.event) : list string :=
  match t with
  | [] => []
  | Os.EvPrint line :: t' => line :: printed t'
  | _ :: t' => printed t'
  end.

(** Every file is written into a directory made just before, and is
    reported just after: the trace is made of [print]s and of groups
    [mkdir -p p.parent; write p; print "Generated: p"]. *)
Fixpoint writes_prepared (t : list Os.event) : Prop :=
  match t with
  | [] => True
  | Os.EvPrint _ :: t' => writes_prepared t'
  | Os.EvMkdir d :: Os.EvWrite p _ :: Os.EvPrint line :: t' =>
      d = Os.path_parent p
      /\ line = "Generated: " ++ Os.path_str p
      /\ writes_prepared t'
  | _ => False
  end.


End Traces.

End Readback.

(** ** A machine on which building makes the harness *)

Module Workshop.
Import Py Os Proc RunIrParityChecks Machine.

(** [cargo] and the harness each either cannot be started or return a
    code; a successful build leaves the harness binary behind. *)
Record workshop : Type := {
  cargo : result Z;
  harness : result Z;
  present : list string
}.

Definition after_build (w : workshop) : workshop :=
  {| cargo := cargo w; harness := harness w;
     present := built_harness :: present w |}.

#[export] Instance workshop_system : System workshop := {|
  path_exists p w := existsb (String.eqb p) (present w);
  subprocess_run cmd cwd capture_output w :=
    match cmd with
    | [] => (raise ValueError, w)
    | prog :: _ =>
        if String.eqb prog "cargo"
        then
          match cargo w with
          | inl e => (raise e, w)
          | inr code =>
              (ok (completed code capture_output),
               if code =? 0 then after_build w else w)
          end
        else
          match harness w with
          | inl e => (raise e, w)
          | inr code => (ok (completed code capture_output), w)
          end
    end
|}.

(** Nothing is built yet; the harness, once built, cannot be started. *)
Definition broken_harness : workshop :=
  {| cargo := ok 0; harness := raise OSError; present := [test_cases] |}.

(** Nothing is built yet; the harness, once built, passes. *)
Definition fresh_checkout : workshop :=
  {| cargo := ok 0; harness := ok 0; present := [test_cases] |}.


(** The build succeeds but leaves no binary where the driver looks. *)
Definition no_binary : machine :=
  {| cargo_returncode := 0; harness_returncode := 0; existing := [test_cases] |}.

End Workshop.

(** ** How a run of the driver ends *)

Module DriverEndings.
Import Py Os Proc RunIrParityChecks DriverRuns.

Definition passed_banner : string := newline ++ "=== All parity checks passed! ===".
Definition failed_banner : string := newline ++ "=== Parity checks failed! ===".

(** A process ran and returned 0. *)
Definition returned_zero (r : result CompletedProcess) : bool :=
  match r with
  | inr cp => returncode cp =? 0
  | inl _ => false
  end.

Section Endings.
Context {W : Type} `{System W}.
Variable script_dir : Path.

(** The driver gets as far as starting the harness: the build succeeded,
    [--build-only] is not given, and the test directory and the harness
    binary exist once the build is over. *)
Definition reaches_harness (args : Namespace) (w : W) : bool :=
  let w1 := snd (build_run script_dir args w) in
  returned_zero (fst (build_run script_dir args w))
  && negb (build_only args)
  && path_exists (resolved_test_dir script_dir args w1) w1
  && path_exists (harness_binary (project_root script_dir)) w1.

(** The way [main] ends on each of its paths: its outcome, the last thing
    it did, and the state it leaves. *)
Definition ending (args : Namespace) (w : W) : outcome unit * option event * W :=
  let root := project_root script_dir in
  let w1 := snd (build_run script_dir args w) in
  let d := resolved_test_dir script_dir args w1 in
  match fst (build_run script_dir args w) with
  | inl e =>
      (Raised e,
       Some (EvRun (build_cmd (verbose args)) (Some (harness_dir root)) (inl e)),
       w1)
  | inr cp =>
      if negb (returncode cp =? 0)
      then
        (Exited 1,
         Some (EvPrint (if negb (verbose args) && truthy_str (stderr cp)
                        then default EmptyString (stderr cp)
                        else "Failed to build compliance harness:")),
         w1)
      else if build_only args
      then (Exited 0, Some (EvPrint "Build completed (--build-only specified)"), w1)
      else if negb (path_exists d w1)
      then (Exited 1, Some (EvPrint ("Test directory not found: " ++ path_str d)), w1)
      else if negb (path_exists (harness_binary root) w1)
      then (Exited 1, Some (EvPrint failed_banner), w1)
      else
        match fst (harness_run script_dir args d w1) with
        | inl e =>
            (Raised e,
             Some (EvRun (parity_cmd root d (verbose args) (output args)) None (inl e)),
             snd (harness_run script_dir args d w1))
        | inr cp2 =>
            (Exited (if returncode cp2 =? 0 then 0 else 1),
             Some (EvPrint (if returncode cp2 =? 0 then passed_banner
                            else failed_banner)),
             snd (harness_run script_dir args d w1))
        end
  end.

End Endings.

End DriverEndings.

(** ** The command line of the driver *)

Module CommandLine.
Import Py Os Proc RunIrParityChecks.
Local Open Scope py_scope.

(** What [parser.parse_args()] makes of a command line.  It returns the
    parsed options; or, for [-h] and [--help], it prints the help text and
    leaves through [sys.exit(0)]; or, for a command line it refuses (an
    unknown option, an option without its value, a stray argument), it
    prints the usage with an error message and leaves through
    [sys.exit(2)]. *)
Inductive parsing : Type :=
| Parsed (args : Namespace)
| Help (text : string)
| Refused (message : string).

Section Script.
Context {W : Type} `{System W}.
(** [Path(__file__).parent.resolve()] *)
Variable script_dir : Path.
(** The parser [main] builds: [--verbose]/[-v], [--test-dir DIR],
    [--output]/[-o FILE] and [--build-only], with [argparse]'s [--help]. *)
Variable parser : list string -> parsing.

(** [parser.parse_args()] on the arguments [argv] of the process.  What
    [argparse] writes is recorded as printed, the help as the error
    message. *)
Definition parse_args (argv : list string) : proc W Namespace :=
  match parser argv with
  | Parsed args => mret args
  | Help text => print text ;; sys_exit 0
  | Refused message => print message ;; sys_exit 2
  end.

(** [main()], whole. *)
Definition main (argv : list string) : proc W unit :=
  args ← parse_args argv;
  RunIrParityChecks.main script_dir args.

End Script.

(** [--output] with an empty value, as [--output=] gives it. *)
Definition empty_output_args : Namespace :=
  {| verbose := false; test_dir := None; output := Some EmptyString;
     build_only := false |}.

End CommandLine.

(** ** Relative file names *)

Module RelativeNames.
Import Os.

(** [name.split("/")] *)
Fixpoint split_sep (name : string) : list string :=
  match name with
  | EmptyString => [EmptyString]
  | String c rest =>
      if Ascii.eqb c "/" then EmptyString :: split_sep rest
      else
        match split_sep rest with
        | [] => [String c EmptyString]
        | part :: parts => String c part :: parts
        end
  end.

(** A name that, joined to a directory, stays below it: it does not start
    at the root and none of its parts is [..]. *)
Definition stays_below (name : string) : bool :=
  negb (starts_with_sep name)
  && forallb (fun part => negb (String.eqb part "..")) (split_sep name).

End RelativeNames.

(** * Theorems *)

(** ** Little-endian bytes *)

Section LittleEndian.
Import Py PyStruct SpecLayout.

Lemma byte_of_Z_mod (z : Z) : byte_of_Z (z mod 256) = byte_of_Z z.
Proof. unfold byte_of_Z. now rewrite Z.mod_mod by lia. Qed.

Lemma byte_of_Z_land (z : Z) : byte_of_Z (Z.land z 255) = byte_of_Z z.
Proof.
  change 255 with (Z.ones 8). rewrite Z.land_ones by lia.
  apply byte_of_Z_mod.
Qed.

(** The recursion of [le_bytes] peels one byte at a time; byte [i] is the
    [i]-th base-256 digit of [z]. *)
Lemma le_bytes_digits (n : nat) : forall (z : Z) (i0 : nat),
  le_bytes n (z / 2 ^ (8 * Z.of_nat i0))
  = map (fun i => byte_of_Z (z / 2 ^ (8 * Z.of_nat i))) (seq i0 n).
Proof.
  induction n as [|n IH]; intros z i0; [reflexivity|].
  cbn [le_bytes seq map]. rewrite byte_of_Z_land. f_equal.
  rewrite <- IH. f_equal.
  rewrite Z.shiftr_div_pow2 by lia.
  rewrite Z.div_div by lia.
  rewrite <- Z.pow_add_r by lia. f_equal. f_equal. lia.
Qed.

(** Reducing [z] modulo [2 ^ (8 * w)] first does not change any of its
    first [w] digits. *)
Lemma digit_of_mod (w i : nat) (z : Z) : (i < w)%nat ->
  byte_of_Z ((z mod 2 ^ (8 * Z.of_nat w)) / 2 ^ (8 * Z.of_nat i))
  = byte_of_Z (z / 2 ^ (8 * Z.of_nat i)).
Proof.
  intros Hi. rewrite <- (byte_of_Z_mod (_ / _)), <- (byte_of_Z_mod (z / _)).
  f_equal. change 256 with (2 ^ 8).
  rewrite <- !Z.shiftr_div_pow2, <- !Z.land_ones by lia.
  apply Z.bits_inj'. intros b Hb.
  rewrite !Z.land_spec, !Z.shiftr_spec, Z.land_spec by lia.
  rewrite !Z.testbit_ones_nonneg by lia.
  destruct (Z.ltb_spec b 8); [|now rewrite !andb_false_r].
  rewrite !andb_true_r.
  replace (b + 8 * Z.of_nat i <? 8 * Z.of_nat w) with true
    by (symmetry; apply Z.ltb_lt; lia).
  now rewrite andb_true_r.
Qed.

(** What [struct] computes and what the specification words say are the
    same bytes. *)
Lemma le_bytes_little_endian (w : nat) (z : Z) :
  le_bytes w z = little_endian w z.
Proof.
  unfold little_endian.
  replace z with (z / 2 ^ (8 * Z.of_nat 0)) at 1
    by (now rewrite Z.div_1_r).
  rewrite le_bytes_digits.
  apply map_ext_in. intros i Hi. apply in_seq in Hi.
  symmetry. apply digit_of_mod. lia.
Qed.

Lemma length_le_bytes (w : nat) (z : Z) : length (le_bytes w z) = w.
Proof. revert z. induction w; intros z; cbn; [reflexivity | now rewrite IHw]. Qed.

End LittleEndian.

(** ** The fixtures *)

Section FixtureTheorems.
Import Py PyStruct Os SpecLayout Corpus Fixtures.
Context `{Pathlib}.
Variable pf : platform.
Variable dir : Path.

Local Abbreviation file name := (path_div_str (GenerateTestData.BINARY_DIR dir) name).

(** In native mode a single ['B'] is one byte on every platform: there is
    nothing to align and nothing to reorder. *)
Lemma pack_B (z : Z) : 0 <= z <= 255 -> pack pf "B" [PyInt z] = ok [byte_of_Z z].
Proof.
  intros Hz. unfold pack. cbn.
  change (2 ^ 8 - 1) with 255.
  replace ((0 <=? z) && (z <=? 255)) with true
    by (symmetry; apply andb_true_iff; split; apply Z.leb_le; lia).
  rewrite byte_of_Z_land.
  destruct (native_order pf); reflexivity.
Qed.

Lemma int_codes_pack_little_endian : Forall packs_little_endian int_codes.
Proof.
  repeat constructor; intros z; unfold pack_item; cbn [code_range prim_of_code];
    rewrite <- le_bytes_little_endian; cbn [in_order code_size];
    unfold fits; cbn [prim_width];
    destruct (Z.leb_spec (snd (0, 0)) z); cbn [snd] in *;
    repeat match goal with
           | |- context [?a <=? ?b] => destruct (Z.leb_spec a b)
           | |- context [?a <? ?b] => destruct (Z.ltb_spec a b)
           end; cbn [andb]; try reflexivity; exfalso; cbn in *; lia.
Qed.

(** The whole of what [generate_test_data.main] writes. *)
Lemma test_data_written :
  written (GenerateTestData.main pf dir)
  = under_binary_dir (GenerateTestData.BINARY_DIR dir) test_data_files.
Proof. destruct pf as [[] al]; vm_compute; reflexivity. Qed.

Lemma test_data_completes : completes (GenerateTestData.main pf dir).
Proof. destruct pf as [[] al]; vm_compute; reflexivity. Qed.

(** The whole of what [generate_primitive_test_binaries.main] writes. *)
Lemma primitives_written :
  written (GeneratePrimitives.main pf) = under_primitives_dir primitive_files.
Proof. vm_compute; reflexivity. Qed.

Lemma primitives_complete : completes (GeneratePrimitives.main pf).
Proof. vm_compute; reflexivity. Qed.

End FixtureTheorems.

Section FixtureClaims.
Import Py PyStruct Os SpecLayout Corpus Fixtures GenerateTestData.
Context `{Pathlib}.
Variable pf : platform.
Variable dir : Path.

Local Abbreviation file name := (path_div_str (BINARY_DIR dir) name).

Ltac by_running := destruct pf as [[] ?]; vm_compute; reflexivity.

Ltac each_fixture tac :=
  repeat (constructor; [split; [reflexivity | tac] |]); constructor.

Ltac leaves_by_running :=
  eexists; split;
  [vm_compute; reflexivity
  |repeat (constructor; [vm_compute; reflexivity|]); constructor].

(** C1: the enum fixtures are a one-byte tag followed by the little-endian
    payload of the selected variant.  [generate_enums_none] writes exactly
    [00]; [generate_enums_value] writes exactly [01 2A 00 00 00], the tag 1
    and the u32 42; [generate_enums_pair] writes exactly [02 64 00 C8 00],
    the tag 2 and the two u16 100 and 200.  These are the canonical bytes of
    [None], [Value(42)] and [Pair(100, 200)] under the specification. *)
Theorem enum_fixtures_are_tag_then_payload :
  written (generate_enums_none pf dir) = [(file "enums/none.bin", [x00])]
  /\ written (generate_enums_value pf dir)
     = [(file "enums/value.bin", [x01; x2a; x00; x00; x00])]
  /\ written (generate_enums_pair pf dir)
     = [(file "enums/pair.bin", [x02; x64; x00; xc8; x00])]
  /\ [x00] = [byte_of_Z 0]
  /\ [x01; x2a; x00; x00; x00] = byte_of_Z 1 :: little_endian 4 42
  /\ [x02; x64; x00; xc8; x00]
     = byte_of_Z 2 :: (little_endian 2 100 ++ little_endian 2 200)%list
  /\ canonical_bytes enums_none = inr [x00]
  /\ canonical_bytes enums_value = inr [x01; x2a; x00; x00; x00]
  /\ canonical_bytes enums_pair = inr [x02; x64; x00; xc8; x00].
Proof.
  repeat split; try reflexivity.
  - unfold generate_enums_none. rewrite pack_B by lia. reflexivity.
  - unfold generate_enums_value. rewrite pack_B by lia. reflexivity.
  - unfold generate_enums_pair. rewrite pack_B by lia. reflexivity.
Qed.

(** C2: every union fixture holds exactly the bytes of its active variant,
    with no discriminant: each of the three is the encoding of its value
    under the descriptor of the active variant alone, and is as long as that
    variant.  The fixture for [int_value = -42] is [D6 FF FF FF], the
    little-endian bytes of the 32-bit two's complement of -42. *)
Theorem union_fixtures_hold_the_active_variant :
  written (generate_unions_int pf dir)
    = [(file "unions/int_value.bin", [xd6; xff; xff; xff])]
  /\ [xd6; xff; xff; xff] = little_endian 4 (-42)
  /\ little_endian 4 (-42) = little_endian 4 (2 ^ 32 - 42)
  /\ Forall2 (fun tv w => fixture_of (BINARY_DIR dir) tv w
                          /\ holds_active_variant tv (snd w))
       [unions_int; unions_float; unions_bytes]
       (written (generate_unions_int pf dir)
          ++ written (generate_unions_float pf dir)
          ++ written (generate_unions_bytes dir)).
Proof.
  split; [reflexivity|]. split; [reflexivity|]. split; [reflexivity|].
  each_fixture ltac:(eexists; split;
                     [vm_compute; reflexivity | split; vm_compute; reflexivity]).
Qed.

(** The bytes one item packs to are as many as its format character says. *)
Lemma pack_item_length (o : byte_order) (k : fmt_code) (v : pyval) (bs : list byte) :
  pack_item o k v = ok bs -> length bs = code_size k.
Proof.
  assert (Hle : forall n z, length (in_order o (le_bytes n z)) = n).
  { intros n z. destruct o; cbn [in_order];
      rewrite ?length_rev; apply length_le_bytes. }
  unfold pack_item.
  destruct (code_range k) as [[lo hi]|] eqn:Hr.
  - destruct v as [z|f]; [|discriminate].
    destruct ((lo <=? z) && (z <=? hi)); [|discriminate].
    intros [= <-]. apply Hle.
  - destruct (as_double v) as [e|x]; [discriminate|]. cbn [rbind].
    destruct k; try discriminate Hr.
    + destruct (_ && _); [discriminate|]. intros [= <-]. destruct o; reflexivity.
    + intros [= <-]. destruct o; reflexivity.
Qed.

(** Under a standard byte order nothing is inserted between the items. *)
Lemma pack_items_length (o : byte_order) (ks : list fmt_code) :
  forall (vs : list pyval) (acc out : list byte),
    pack_items pf (Standard o) ks vs acc = ok out ->
    length out = (length acc + sum_sizes (map code_size ks))%nat.
Proof.
  induction ks as [|k ks IH]; intros [|v vs] acc out; cbn [pack_items];
    try discriminate.
  - intros [= <-]. cbn. symmetry. apply Nat.add_0_r.
  - destruct (pack_item o k v) as [e|bs] eqn:Hk; [discriminate|]. cbn [rbind].
    intros Hout. apply IH in Hout. apply pack_item_length in Hk.
    rewrite Hout, length_app, Hk. cbn [map sum_sizes fold_right].
    symmetry. apply Nat.add_assoc.
Qed.

(** C3: integers are written little-endian.  The u32 0x12345678 packs to
    [78 56 34 12]; these four bytes are at offset 3, the offset of [u32_val],
    in the fixture [u32_0x12345678.bin]; under ['<'] every integer format
    packs to the little-endian bytes of the specification; and in every
    fixture of both generators every primitive of the vector sits in that
    encoding at its offset, on every platform. *)
Theorem integers_are_written_little_endian :
  pack pf "<I" [PyInt 0x12345678] = ok [x78; x56; x34; x12]
  /\ [x78; x56; x34; x12] = little_endian 4 0x12345678
  /\ Forall packs_little_endian int_codes
  /\ (exists data,
        nth_error (written (GeneratePrimitives.main pf)) 4
          = Some (path_of_str (os_path_join primitives_dir "u32_0x12345678.bin"), data)
        /\ slice 3 4 data = [x78; x56; x34; x12])
  /\ (exists sizes,
        field_sizes AllPrimitives_fields = inr sizes
        /\ nth_error (combine (map fst AllPrimitives_fields) (offsets_from 0 sizes)) 2
           = Some ("u32_val", 3%nat))
  /\ Forall2 (fun tv w => fixture_of (BINARY_DIR dir) tv w
                          /\ leaves_in_place tv (snd w))
       test_data_vectors (written (GenerateTestData.main pf dir))
  /\ Forall2 (fun tv w => primitive_fixture_of tv w /\ leaves_in_place tv (snd w))
       primitive_vectors (written (GeneratePrimitives.main pf)).
Proof.
  split; [reflexivity|]. split; [reflexivity|].
  split; [apply int_codes_pack_little_endian|].
  split; [eexists; split; [rewrite primitives_written|]; reflexivity|].
  split; [eexists; split; reflexivity|].
  split.
  - rewrite test_data_written. each_fixture leaves_by_running.
  - rewrite primitives_written. each_fixture leaves_by_running.
Qed.

(** C4: struct fixtures are densely packed.  In every struct fixture the
    length is the sum of the sizes of the fields and each field occupies the
    bytes that start at the sum of the sizes of the fields before it.  An
    [AllPrimitives] file is 42 bytes whatever values are packed, with fields
    at 0, 1, 3, 7, 15, 16, 18, 22, 30, 34; the [SimpleStruct] fixture (u64,
    u8, u16) is 11 bytes with fields at 0, 8, 9. *)
Theorem struct_fixtures_are_densely_packed :
  Forall2 (fun tv w => fixture_of (BINARY_DIR dir) tv w /\ densely_packed tv (snd w))
    [arrays_simple; arrays_all_zeros; structs_simple; structs_rectangle]
    (written (generate_arrays_simple pf dir)
       ++ written (generate_arrays_zeros pf dir)
       ++ written (generate_structs_simple pf dir)
       ++ written (generate_structs_rectangle pf dir))
  /\ Forall2 (fun tv w => primitive_fixture_of tv w
                          /\ densely_packed tv (snd w)
                          /\ length (snd w) = 42%nat)
       primitive_vectors (written (GeneratePrimitives.main pf))
  /\ (forall u8 u16 u32 u64 i8 i16 i32 i64 f32 f64 : pyval,
        match pack pf "<BHIQbhiqfd" [u8; u16; u32; u64; i8; i16; i32; i64; f32; f64] with
        | inr data => length data = 42%nat
        | inl _ => True
        end)
  /\ field_sizes AllPrimitives_fields = inr [1; 2; 4; 8; 1; 2; 4; 8; 4; 8]%nat
  /\ offsets_from 0 [1; 2; 4; 8; 1; 2; 4; 8; 4; 8]%nat
     = [0; 1; 3; 7; 15; 16; 18; 22; 30; 34]%nat
  /\ sum_sizes [1; 2; 4; 8; 1; 2; 4; 8; 4; 8]%nat = 42%nat
  /\ (exists data,
        written (generate_structs_simple pf dir) = [(file "structs/simple.bin", data)]
        /\ length data = 11%nat)
  /\ field_sizes SimpleStruct_fields = inr [8; 1; 2]%nat
  /\ offsets_from 0 [8; 1; 2]%nat = [0; 8; 9]%nat
  /\ sum_sizes [8; 1; 2]%nat = 11%nat.
Proof.
  assert (Hsimple : written (generate_structs_simple pf dir)
                    = [(file "structs/simple.bin",
                        [x39; x30; x00; x00; x00; x00; x00; x00; x42; x0f; x27])]).
  { unfold generate_structs_simple. rewrite pack_B by lia. reflexivity. }
  split.
  { rewrite Hsimple.
    each_fixture ltac:(eexists; split; [vm_compute; reflexivity|];
                       split; [reflexivity|];
                       repeat (constructor;
                               [eexists; split;
                                [vm_compute; reflexivity | vm_compute; reflexivity]|]);
                       constructor). }
  split.
  { rewrite primitives_written.
    each_fixture ltac:(split; [|reflexivity];
                       eexists; split; [vm_compute; reflexivity|];
                       split; [reflexivity|];
                       repeat (constructor;
                               [eexists; split;
                                [vm_compute; reflexivity | vm_compute; reflexivity]|]);
                       constructor). }
  split.
  { intros. unfold pack. cbn [parse_format]. cbn -[pack_items].
    match goal with
    | |- match ?p with _ => _ end => destruct p as [e|data] eqn:Hp; [exact I|]
    end.
    apply pack_items_length in Hp. exact Hp. }
  repeat split; try reflexivity.
  eexists; split; [exact Hsimple | reflexivity].
Qed.

(** The encoding of an array of [n] elements is [n] times the width of one
    element long: nothing is stored but the elements. *)
Lemma length_elements_of (k : prim) (zs : list Z) :
  length (elements_of k zs) = (prim_width k * length zs)%nat.
Proof.
  unfold elements_of. induction zs as [|z zs IH]; cbn [map concat length].
  - lia.
  - rewrite length_app, IH, <- le_bytes_little_endian, length_le_bytes. lia.
Qed.

(** C5: array fixtures are the little-endian encodings of their elements,
    one after the other, with no header and no length prefix.
    [arrays/simple.bin] is u8[4], u16[3], u32[2], i32[5]: 4 + 6 + 8 + 20 = 38
    bytes. *)
Theorem array_fixtures_are_their_elements :
  written (generate_arrays_simple pf dir)
    = [(file "arrays/simple.bin",
        (elements_of U8 [1; 2; 3; 4] ++ elements_of U16 [10; 20; 30]
           ++ elements_of U32 [100; 200]
           ++ elements_of I32 [-1; 0; 1; -100; 100])%list)]
  /\ written (generate_arrays_zeros pf dir)
     = [(file "arrays/all_zeros.bin",
         (elements_of U8 [0; 0; 0; 0] ++ elements_of U16 [0; 0; 0]
            ++ elements_of U32 [0; 0]
            ++ elements_of I32 [0; 0; 0; 0; 0])%list)]
  /\ length (elements_of U8 [1; 2; 3; 4] ++ elements_of U16 [10; 20; 30]
               ++ elements_of U32 [100; 200]
               ++ elements_of I32 [-1; 0; 1; -100; 100])%list
     = (4 + 6 + 8 + 20)%nat
  /\ (4 + 6 + 8 + 20 = 38)%nat
  /\ (forall k zs, length (elements_of k zs) = (prim_width k * length zs)%nat)
  /\ canonical_bytes arrays_simple
     = inr (elements_of U8 [1; 2; 3; 4] ++ elements_of U16 [10; 20; 30]
              ++ elements_of U32 [100; 200]
              ++ elements_of I32 [-1; 0; 1; -100; 100])%list
  /\ canonical_bytes arrays_all_zeros
     = inr (elements_of U8 [0; 0; 0; 0] ++ elements_of U16 [0; 0; 0]
              ++ elements_of U32 [0; 0]
              ++ elements_of I32 [0; 0; 0; 0; 0])%list.
Proof.
  split; [reflexivity|]. split; [reflexivity|].
  split; [rewrite !length_app, !length_elements_of; reflexivity|].
  split; [reflexivity|].
  split; [apply length_elements_of|].
  split; reflexivity.
Qed.

End FixtureClaims.

(** ** Running the generators again *)

Section Determinism.
Import Py PyStruct Os SpecLayout Corpus Fixtures.
Context `{Pathlib}.

Lemma apply_trace_app (fs : gmap string (list byte)) (t1 t2 : list event) :
  apply_trace fs (t1 ++ t2) = apply_trace (apply_trace fs t1) t2.
Proof. unfold apply_trace. apply fold_left_app. Qed.

(** After a trace, a path holds what the trace wrote there last, or what
    it held before if the trace never wrote there. *)
Lemma apply_trace_lookup (t : list event) :
  forall (fs : gmap string (list byte)) (k : string),
    apply_trace fs t !! k
    = match last_write k t with
      | Some d => Some d
      | None => fs !! k
      end.
Proof.
  induction t as [|ev t IH]; intros fs k; [reflexivity|].
  change (apply_trace fs (ev :: t)) with (apply_trace (apply_event fs ev) t).
  rewrite IH. cbn [last_write].
  destruct (last_write k t) as [d|]; [reflexivity|].
  destruct ev as [line|p|p d|cmd cwd res]; cbn [apply_event]; try reflexivity.
  rewrite lookup_insert.
  destruct (String.eqb_spec (path_str p) k) as [->|Hne].
  - now rewrite decide_True.
  - now rewrite decide_False.
Qed.

(** Replaying a trace on the file system it produced changes nothing. *)
Lemma apply_trace_idempotent (fs : gmap string (list byte)) (t : list event) :
  apply_trace (apply_trace fs t) t = apply_trace fs t.
Proof.
  apply map_eq. intros k. rewrite !apply_trace_lookup.
  now destruct (last_write k t).
Qed.

Lemma apply_trace_runs (t : list event) (n : nat) :
  forall fs : gmap string (list byte),
    apply_trace fs (runs (S n) t) = apply_trace fs t.
Proof.
  induction n as [|n IH]; intros fs.
  - cbn [runs]. now rewrite app_nil_r.
  - change (runs (S (S n)) t) with (t ++ runs (S n) t)%list.
    rewrite apply_trace_app, IH. apply apply_trace_idempotent.
Qed.

(** C9: fixture generation is deterministic.  On every platform, from every
    script directory and over every file system, both generators run to
    their end and write the same constant tables of bytes, so two runs in
    two environments write the same contents for every fixture; and running a
    generator any number of times leaves the files as one run leaves
    them. *)
Theorem fixture_generation_is_deterministic
    (pf pf' : platform) (dir dir' : Path) (n : nat) (fs : gmap string (list byte)) :
  completes (GenerateTestData.main pf dir)
  /\ completes (GeneratePrimitives.main pf)
  /\ written (GenerateTestData.main pf dir)
     = under_binary_dir (GenerateTestData.BINARY_DIR dir) test_data_files
  /\ written (GeneratePrimitives.main pf) = under_primitives_dir primitive_files
  /\ map snd (written (GenerateTestData.main pf dir))
     = map snd (written (GenerateTestData.main pf' dir'))
  /\ written (GeneratePrimitives.main pf) = written (GeneratePrimitives.main pf')
  /\ apply_trace fs (runs (S n) (trace_of (GenerateTestData.main pf dir)))
     = apply_trace fs (trace_of (GenerateTestData.main pf dir))
  /\ apply_trace fs (runs (S n) (trace_of (GeneratePrimitives.main pf)))
     = apply_trace fs (trace_of (GeneratePrimitives.main pf)).
Proof.
  split; [apply test_data_completes|].
  split; [apply primitives_complete|].
  split; [apply test_data_written|].
  split; [apply primitives_written|].
  split.
  { rewrite !test_data_written. unfold under_binary_dir.
    rewrite !map_map. reflexivity. }
  split; [now rewrite !primitives_written|].
  split; apply apply_trace_runs.
Qed.

End Determinism.

(** ** The driver *)

Section DriverClaims.
Import Py Os Proc RunIrParityChecks DriverRuns DriverEndings.
Context {W : Type} `{System W}.
Variable script_dir : Path.

Local Abbreviation root := (find_project_root script_dir).

(** Determining the test directory starts no process, prints nothing and
    always returns. *)
Lemma determine_test_dir_returns (args : Namespace) (w : W) :
  determine_test_dir root args w
  = ([], Returned (resolved_test_dir script_dir args w), w).
Proof.
  unfold determine_test_dir, resolved_test_dir, find_compliance_tests_dir, project_root.
  destruct (truthy_str (test_dir args)).
  - cbv zeta. destruct (path_is_absolute _); reflexivity.
  - cbv beta iota zeta delta [bind mbind proc_bind exists_ mret proc_ret].
    destruct (path_exists _ w); reflexivity.
Qed.

Ltac run_main :=
  cbv beta iota zeta delta
    [main until_test_dir build_compliance_harness run_parity_checks
     bind mbind mret proc_bind proc_ret print run when sys_exit exists_
     exit_code outcome_of trace
     decisions build_process harness_process build_run harness_run
     build_succeeded project_root fst snd].

(** [main] decides as the table [decisions] says. *)
Lemma main_decisions (args : Namespace) (w : W) :
  (exit_code (main script_dir args w), processes_run (trace (main script_dir args w)))
  = decisions script_dir args w.
Proof.
  run_main.
  destruct (subprocess_run (build_cmd _) _ _ w) as [[e|cp] w1] eqn:Hb;
    cbv beta iota zeta; [reflexivity|].
  destruct (returncode cp =? 0) eqn:Hrc; cbn [negb]; cbv beta iota zeta.
  2: { destruct (negb (verbose args) && truthy_str (stderr cp)); reflexivity. }
  destruct (build_only args); cbv beta iota zeta; [reflexivity|].
  rewrite determine_test_dir_returns. cbv beta iota zeta.
  fold (project_root script_dir).
  destruct (path_exists (resolved_test_dir script_dir args w1) w1);
    cbn [negb]; cbv beta iota zeta; [|reflexivity].
  destruct (path_exists (harness_binary _) w1);
    cbn [negb]; cbv beta iota zeta; [|reflexivity].
  destruct (subprocess_run (parity_cmd _ _ _ _) _ _ w1) as [[e|cp2] w2] eqn:Hh;
    cbv beta iota zeta; [reflexivity|].
  destruct (returncode cp2 =? 0); reflexivity.
Qed.

Lemma main_exit_code (args : Namespace) (w : W) :
  exit_code (main script_dir args w) = fst (decisions script_dir args w).
Proof. now rewrite <- main_decisions. Qed.

Lemma main_processes (args : Namespace) (w : W) :
  processes_run (trace (main script_dir args w)) = snd (decisions script_dir args w).
Proof. now rewrite <- main_decisions. Qed.

(** [main] gets as far as a test directory only after a successful build
    and without [--build-only]; the directory is then the resolved one, in
    the state the build left. *)
Lemma until_test_dir_returned (args : Namespace) (w : W)
    (t : list event) (d : Path) (w1 : W) :
  until_test_dir script_dir args w = (t, Returned d, w1) ->
  build_succeeded (fst (build_run script_dir args w)) = true
  /\ build_only args = false
  /\ w1 = snd (build_run script_dir args w)
  /\ d = resolved_test_dir script_dir args w1.
Proof.
  run_main.
  destruct (subprocess_run (build_cmd _) _ _ w) as [[e|cp] w0] eqn:Hb;
    cbv beta iota zeta; [discriminate|].
  destruct (returncode cp =? 0) eqn:Hrc; cbn [negb]; cbv beta iota zeta.
  2: { destruct (negb (verbose args) && truthy_str (stderr cp)); discriminate. }
  destruct (build_only args); cbv beta iota zeta; [discriminate|].
  rewrite determine_test_dir_returns. cbv beta iota zeta.
  intros [= _ <- <-]. auto.
Qed.

(** The build is not a harness run: it is started in the harness
    directory, the harness in the driver's own. *)
Lemma build_is_not_harness (args : Namespace) (w : W) (res : result CompletedProcess) :
  ~ is_harness_run script_dir (build_process script_dir args w) res.
Proof. intros (dir & rest & Heq). discriminate Heq. Qed.

Lemma only_build_no_harness (args : Namespace) (w : W) :
  ~ harness_invoked script_dir [build_process script_dir args w].
Proof.
  intros (p & res & [<-|[]] & Hrun). exact (build_is_not_harness _ _ _ Hrun).
Qed.

Lemma only_build_no_zero (args : Namespace) (w : W) :
  ~ harness_returned_zero script_dir [build_process script_dir args w].
Proof.
  intros (p & cp & [<-|[]] & Hrun & _). exact (build_is_not_harness _ _ _ Hrun).
Qed.

(** C6, as amended: without [--build-only], after a successful build, the
    driver exits with code 0 if the compliance harness was run and returned
    0, and with code 1 in every other case: no test directory, no harness
    binary, a harness that could not be started, a harness that returned
    another code. *)
Theorem exit_code_mirrors_harness (args : Namespace) (w : W) :
  build_only args = false ->
  build_succeeded (fst (build_run script_dir args w)) = true ->
  mirrors_harness script_dir args w.
Proof.
  intros Hgate Hbuilt. unfold mirrors_harness. cbv zeta.
  rewrite main_exit_code, main_processes. unfold decisions.
  rewrite Hbuilt, Hgate. cbn [negb].
  set (w1 := snd (build_run script_dir args w)).
  set (d := resolved_test_dir script_dir args w1).
  destruct (path_exists d w1); cbn [negb fst snd];
    [|split; [intros Hz; now apply only_build_no_zero in Hz | reflexivity]].
  destruct (path_exists (harness_binary _) w1); cbn [negb fst snd];
    [|split; [intros Hz; now apply only_build_no_zero in Hz | reflexivity]].
  unfold harness_process.
  destruct (fst (harness_run script_dir args d w1)) as [e|cp] eqn:Hh;
    cbn [build_succeeded].
  - split; [|reflexivity].
    intros (p & cp & [<-|[<-|[]]] & Hrun & _).
    + now apply build_is_not_harness in Hrun.
    + destruct Hrun as (dir & rest & Heq). discriminate Heq.
  - destruct (Z.eqb_spec (returncode cp) 0) as [Hz|Hnz].
    + split; [reflexivity|]. intros Hno. exfalso. apply Hno.
      exists (parity_cmd (project_root script_dir) d (verbose args) (output args),
              None, inr cp), cp.
      split; [right; left; reflexivity|]. split; [|exact Hz].
      unfold is_harness_run, parity_cmd.
      destruct (verbose args), (truthy_str (output args)); cbn [app];
        eexists; eexists; reflexivity.
    + split; [|reflexivity].
      intros (p & cp' & [<-|[<-|[]]] & Hrun & Hz).
      * now apply build_is_not_harness in Hrun.
      * destruct Hrun as (dir & rest & Heq). congruence.
Qed.

(** C7: if the test directory the driver resolved does not exist, the driver
    exits with code 1 and the only process it ever started is the build: the
    compliance harness is never invoked. *)
Theorem missing_test_dir_is_fatal (args : Namespace) (w : W)
    (t : list event) (d : Path) (w1 : W) :
  until_test_dir script_dir args w = (t, Returned d, w1) ->
  path_exists d w1 = false ->
  exit_code (main script_dir args w) = 1
  /\ processes_run (trace (main script_dir args w)) = [build_process script_dir args w]
  /\ ~ harness_invoked script_dir (processes_run (trace (main script_dir args w))).
Proof.
  intros Hreach Hmissing.
  apply until_test_dir_returned in Hreach as (Hbuilt & Hgate & -> & ->).
  assert (Hd : decisions script_dir args w = (1, [build_process script_dir args w])).
  { unfold decisions. now rewrite Hbuilt, Hgate, Hmissing. }
  rewrite main_exit_code, main_processes, Hd. cbn [fst snd].
  repeat split. apply only_build_no_harness.
Qed.

(** C8, as amended: the harness command line is a function of the driver's
    arguments.  It is the harness binary, the test directory and [--parity],
    then [--verbose] exactly when the flag is set, then [--output FILE]
    exactly when a non-empty output file name is given: an empty name
    counts as none.  [run_parity_checks] starts that command and nothing
    else; and [main] starts the build, then, exactly when it gets as far as
    the harness, that command made from the test directory it resolved and
    from [args.verbose] and [args.output], and no other process. *)
Theorem harness_command_line (d : Path) (verbose : bool)
    (output_file : option string) (args : Namespace) (w : W) :
  parity_cmd root d verbose output_file
    = ([path_str (harness_binary root); path_str d; "--parity"]
         ++ verbose_part verbose ++ output_part output_file)%list
  /\ verbose_part true = ["--verbose"]
  /\ verbose_part false = []
  /\ output_part None = []
  /\ output_part (Some EmptyString) = []
  /\ (forall c f, output_part (Some (String c f)) = ["--output"; String c f])
  /\ processes_run (trace (run_parity_checks root d verbose output_file w))
     = (if path_exists (harness_binary root) w
        then [(parity_cmd root d verbose output_file, None,
               fst (subprocess_run (parity_cmd root d verbose output_file)
                                   None false w))]
        else [])
  /\ processes_run (trace (main script_dir args w))
     = build_process script_dir args w
       :: (if reaches_harness script_dir args w
           then
             [(([path_str (harness_binary root);
                 path_str (resolved_test_dir script_dir args
                             (snd (build_run script_dir args w)));
                 "--parity"]
                 ++ verbose_part (RunIrParityChecks.verbose args)
                 ++ output_part (output args))%list,
               None,
               fst (harness_run script_dir args
                      (resolved_test_dir script_dir args
                         (snd (build_run script_dir args w)))
                      (snd (build_run script_dir args w))))]
           else []).
Proof.
  assert (Hcmd : forall r x v o,
            parity_cmd r x v o
            = ([path_str (harness_binary r); path_str x; "--parity"]
                 ++ verbose_part v ++ output_part o)%list).
  { intros r x v [[|c f]|]; destruct v; reflexivity. }
  split; [apply Hcmd|].
  do 5 (split; [reflexivity|]).
  split.
  - run_main. destruct (path_exists _ w); cbn [negb]; cbv beta iota zeta;
      [|reflexivity].
    destruct (subprocess_run _ _ _ w) as [[e|cp] w2]; reflexivity.
  - rewrite main_processes, <- Hcmd.
    unfold decisions, reaches_harness, returned_zero, build_succeeded,
      harness_process, project_root.
    destruct (fst (build_run _ _ _)) as [e|cp]; [reflexivity|].
    destruct (returncode cp =? 0); cbn [negb andb snd]; [|reflexivity].
    destruct (build_only args); cbn [negb andb snd]; [reflexivity|].
    destruct (path_exists (resolved_test_dir _ _ _) _); cbn [negb andb snd];
      [|reflexivity].
    destruct (path_exists (harness_binary _) _); reflexivity.
Qed.

(** C10: when [--build-only] is given, or when the build fails (with or
    without [--build-only]), the build is the only process the driver
    starts, so no parity check is run; the driver exits with code 0 if the
    build succeeded and with code 1 if it failed. *)
Theorem build_gate (args : Namespace) (w : W) :
  build_only args = true
  \/ build_succeeded (fst (build_run script_dir args w)) = false ->
  exit_code (main script_dir args w)
    = (if build_succeeded (fst (build_run script_dir args w)) then 0 else 1)
  /\ processes_run (trace (main script_dir args w)) = [build_process script_dir args w]
  /\ ~ harness_invoked script_dir (processes_run (trace (main script_dir args w))).
Proof.
  intros Hcase.
  assert (Hd : decisions script_dir args w
               = (if build_succeeded (fst (build_run script_dir args w)) then 0 else 1,
                  [build_process script_dir args w])).
  { unfold decisions.
    destruct (build_succeeded _); cbn [negb]; [|reflexivity].
    destruct Hcase as [-> | Hf]; [reflexivity | discriminate Hf]. }
  rewrite main_exit_code, main_processes, Hd. cbn [fst snd].
  repeat split. apply only_build_no_harness.
Qed.

End DriverClaims.

(** ** The driver on a concrete machine *)

Section OnAMachine.
Import Py Os Proc RunIrParityChecks DriverRuns Machine.

(** The claim C6 as it is written fails for [--build-only]: on a machine
    where the build succeeds, the driver started with [--build-only] exits
    with code 0 although no harness was run, where the claim asks for
    code 1. *)
Lemma build_only_does_not_mirror_harness :
  build_succeeded (fst (build_run scripts build_only_args all_good)) = true
  /\ exit_code (main scripts build_only_args all_good) = 0
  /\ processes_run (trace (main scripts build_only_args all_good))
     = [(["cargo"; "build"; "--release"; "--quiet"],
         Some "/repo/abi/abi_gen/tests/compliance_harness_rust",
         inr (completed 0 true))]
  /\ ~ mirrors_harness scripts build_only_args all_good.
Proof.
  split; [reflexivity|]. split; [reflexivity|]. split; [reflexivity|].
  intros [_ Hone].
  assert (Hexit : exit_code (main scripts build_only_args all_good) = 1).
  { apply Hone. intros (p & cp & [<-|[]] & (d & rest & Heq) & _). discriminate Heq. }
  vm_compute in Hexit. discriminate Hexit.
Qed.

(** The claim C8 as it is written fails for an empty output file name:
    with [--output=] an output file is given, yet the harness is started
    without [--output]. *)
Lemma empty_output_is_not_passed_on :
  output CommandLine.empty_output_args = Some EmptyString
  /\ processes_run (trace (main scripts CommandLine.empty_output_args all_good))
     = [(["cargo"; "build"; "--release"; "--quiet"],
         Some "/repo/abi/abi_gen/tests/compliance_harness_rust",
         inr (completed 0 true));
        ([built_harness; test_cases; "--parity"], None, inr (completed 0 false))]
  /\ ~ output_given_is_passed scripts CommandLine.empty_output_args all_good.
Proof.
  split; [reflexivity|]. split; [reflexivity|].
  intros Hclaim.
  destruct (Hclaim EmptyString
              ([built_harness; test_cases; "--parity"], None,
               inr (completed 0 false))
              (inr (completed 0 false)))
    as [front Hfront].
  - reflexivity.
  - right. left. reflexivity.
  - exists test_cases, []. reflexivity.
  - cbn [fst] in Hfront. apply (f_equal (@rev string)) in Hfront.
    rewrite rev_app_distr in Hfront. cbn [rev app] in Hfront.
    discriminate Hfront.
Qed.

Lemma exit_code_mirrors_harness_witness :
  build_only plain_args = false
  /\ build_succeeded (fst (build_run scripts plain_args all_good)) = true
  /\ mirrors_harness scripts plain_args all_good.
Proof.
  split; [reflexivity|]. split; [reflexivity|].
  apply (exit_code_mirrors_harness scripts plain_args all_good); reflexivity.
Defined.

Lemma missing_test_dir_is_fatal_witness :
  until_test_dir scripts plain_args no_test_cases
    = ([EvPrint "Project root: /repo/abi/abi_gen";
        EvPrint "Building compliance harness...";
        EvRun ["cargo"; "build"; "--release"; "--quiet"]
              (Some "/repo/abi/abi_gen/tests/compliance_harness_rust")
              (inr (completed 0 true));
        EvPrint "Compliance harness built successfully."],
       Returned tests, no_test_cases)
  /\ path_exists tests no_test_cases = false
  /\ exit_code (main scripts plain_args no_test_cases) = 1
  /\ processes_run (trace (main scripts plain_args no_test_cases))
     = [build_process scripts plain_args no_test_cases]
  /\ ~ harness_invoked scripts
         (processes_run (trace (main scripts plain_args no_test_cases))).
Proof.
  split; [reflexivity|]. split; [reflexivity|].
  eapply (missing_test_dir_is_fatal scripts plain_args no_test_cases
            _ tests no_test_cases); reflexivity.
Defined.

Lemma build_gate_witness :
  (build_only build_only_args = true
   \/ build_succeeded (fst (build_run scripts build_only_args all_good)) = false)
  /\ exit_code (main scripts build_only_args all_good)
     = (if build_succeeded (fst (build_run scripts build_only_args all_good))
        then 0 else 1)
  /\ processes_run (trace (main scripts build_only_args all_good))
     = [build_process scripts build_only_args all_good]
  /\ ~ harness_invoked scripts
         (processes_run (trace (main scripts build_only_args all_good))).
Proof.
  split; [left; reflexivity|].
  apply (build_gate scripts build_only_args all_good); left; reflexivity.
Defined.

(** A failed build, with and without [--build-only], ends the driver with
    code 1. *)
Example build_fails_exit_code :
  exit_code (main scripts plain_args build_fails) = 1
  /\ exit_code (main scripts build_only_args build_fails) = 1.
Proof. split; reflexivity. Qed.

(** On a running harness the driver passes its own flags on. *)
Example full_command_line :
  processes_run
    (trace (main scripts full_args
              {| cargo_returncode := 0; harness_returncode := 0;
                 existing := [built_harness; "/repo/abi/abi_gen/cases"] |}))
  = [(["cargo"; "build"; "--release"],
      Some "/repo/abi/abi_gen/tests/compliance_harness_rust",
      inr (completed 0 false));
     ([built_harness; "/repo/abi/abi_gen/cases"; "--parity"; "--verbose";
       "--output"; "report.json"],
      None, inr (completed 0 false))].
Proof. reflexivity. Qed.

End OnAMachine.

(** * Further properties *)

(** ** Reading integers back *)

Section Decoding.
Import Py PyStruct SpecLayout Readback.

Lemma Z_of_byte_of_Z (z : Z) : Z_of_byte (byte_of_Z z) = z mod 256.
Proof.
  unfold Z_of_byte, byte_of_Z.
  assert (Hr : 0 <= z mod 256 < 256) by (apply Z.mod_pos_bound; lia).
  destruct (Byte.of_N (Z.to_N (z mod 256))) as [b|] eqn:Hb.
  - apply Byte.to_of_N in Hb. rewrite Hb. lia.
  - apply Byte.of_N_None_iff in Hb. lia.
Qed.

(** Reading [w] little-endian bytes of [z] back gives [z] modulo
    [2 ^ (8 * w)]. *)
Lemma le_decode_le_bytes (w : nat) :
  forall z : Z, le_decode (le_bytes w z) = z mod 2 ^ (8 * Z.of_nat w).
Proof.
  induction w as [|w IH]; intros z.
  - cbn. now rewrite Z.mod_1_r.
  - cbn [le_bytes le_decode fold_right]. fold (le_decode (le_bytes w (Z.shiftr z 8))).
    rewrite IH, byte_of_Z_land, Z_of_byte_of_Z, Z.shiftr_div_pow2 by lia.
    replace (8 * Z.of_nat (S w)) with (8 + 8 * Z.of_nat w) by lia.
    rewrite Z.pow_add_r by lia. change (2 ^ 8) with 256.
    symmetry. apply Z.rem_mul_r; lia.
Qed.

Lemma unsigned_read_back (w : nat) (z : Z) :
  0 <= z < 2 ^ (8 * Z.of_nat w) -> le_decode (le_bytes w z) = z.
Proof. intros Hz. rewrite le_decode_le_bytes. now apply Z.mod_small. Qed.

Lemma signed_read_back (w : nat) (z : Z) :
  (0 < w)%nat ->
  - 2 ^ (8 * Z.of_nat w - 1) <= z < 2 ^ (8 * Z.of_nat w - 1) ->
  to_signed w (le_decode (le_bytes w z)) = z.
Proof.
  intros Hw Hz. rewrite le_decode_le_bytes. unfold to_signed.
  set (M := 2 ^ (8 * Z.of_nat w)).
  set (h := 2 ^ (8 * Z.of_nat w - 1)) in *.
  assert (HM : M = 2 * h).
  { unfold M, h. rewrite <- Z.pow_succ_r by lia. f_equal. lia. }
  assert (Hh : 0 < h) by (apply Z.pow_pos_nonneg; lia).
  destruct (Z.ltb_spec z 0) as [Hneg|Hpos].
  - replace (z mod M) with (z + M).
    + destruct (Z.ltb_spec (z + M) h); lia.
    + symmetry. rewrite <- (Z.mod_add z 1 M) by lia.
      rewrite Z.mul_1_l. apply Z.mod_small. lia.
  - rewrite Z.mod_small by lia.
    destruct (Z.ltb_spec z h); lia.
Qed.

End Decoding.

(** ** [write_binary] of [generate_primitive_test_binaries.py], for any
    arguments *)

Section WriteBinary.
Import Py PyStruct Os SpecLayout Fixtures Readback.
Context `{Pathlib}.

Local Abbreviation write := GeneratePrimitives.write_binary.

(** Under a standard byte order the platform is never consulted. *)
Lemma pack_items_standard (pf pf' : platform) (o : byte_order) (ks : list fmt_code) :
  forall (vs : list pyval) (acc : list byte),
    pack_items pf (Standard o) ks vs acc = pack_items pf' (Standard o) ks vs acc.
Proof.
  induction ks as [|k ks IH]; intros [|v vs] acc; cbn [pack_items]; try reflexivity.
  destruct (pack_item o k v) as [e|bs]; cbn [rbind]; [reflexivity | apply IH].
Qed.

Lemma pack_int (k : fmt_code) (z : Z) :
  In k int_codes ->
  pack_item LittleEndian k (PyInt z)
  = if fits (prim_of_code k) z then ok (le_bytes (code_size k) z)
    else raise StructError.
Proof.
  intros Hk. rewrite le_bytes_little_endian.
  pose proof int_codes_pack_little_endian as Hall.
  rewrite Forall_forall in Hall. apply Hall. now apply list_elem_of_In.
Qed.

Lemma pack_single (x : spec_float) :
  pack_item LittleEndian c_f (PyFloat x)
  = if single_overflows x then raise OverflowError
    else ok (le_bytes 4 (PyFloat.bits32 (PyFloat.to_single x))).
Proof. reflexivity. Qed.

Lemma pack_double (x : spec_float) :
  pack_item LittleEndian c_d (PyFloat x) = ok (le_bytes 8 (PyFloat.bits64 x)).
Proof. reflexivity. Qed.

Lemma fits_unsigned (k : prim) (z : Z) :
  In k [U8; U16; U32; U64] -> fits k z = true ->
  0 <= z < 2 ^ (8 * Z.of_nat (prim_width k)).
Proof.
  intros Hk Hf.
  assert (Hb : (0 <=? z) && (z <? 2 ^ (8 * Z.of_nat (prim_width k))) = true).
  { cbn in Hk. destruct Hk as [<-|[<-|[<-|[<-|[]]]]]; exact Hf. }
  apply andb_true_iff in Hb as [Hlo%Z.leb_le Hhi%Z.ltb_lt]. lia.
Qed.

Lemma fits_signed (k : prim) (z : Z) :
  In k [I8; I16; I32; I64] -> fits k z = true ->
  - 2 ^ (8 * Z.of_nat (prim_width k) - 1) <= z
  < 2 ^ (8 * Z.of_nat (prim_width k) - 1).
Proof.
  intros Hk Hf.
  assert (Hb : (- 2 ^ (8 * Z.of_nat (prim_width k) - 1) <=? z)
               && (z <? 2 ^ (8 * Z.of_nat (prim_width k) - 1)) = true).
  { cbn in Hk. destruct Hk as [<-|[<-|[<-|[<-|[]]]]]; exact Hf. }
  apply andb_true_iff in Hb as [Hlo%Z.leb_le Hhi%Z.ltb_lt]. lia.
Qed.

(** What the format of [write_binary] packs typed arguments to. *)
Lemma pack_all_primitives (pf : platform) (u8 u16 u32 u64 i8 i16 i32 i64 : Z)
    (f32 f64 : spec_float) :
  pack pf "<BHIQbhiqfd"
    [PyInt u8; PyInt u16; PyInt u32; PyInt u64;
     PyInt i8; PyInt i16; PyInt i32; PyInt i64; PyFloat f32; PyFloat f64]
  = if ints_fit u8 u16 u32 u64 i8 i16 i32 i64
    then if single_overflows f32 then raise OverflowError
         else ok (all_primitives_bytes u8 u16 u32 u64 i8 i16 i32 i64 f32 f64)
    else raise StructError.
Proof.
  unfold pack, ints_fit, all_primitives_bytes.
  change (parse_format pf "<BHIQbhiqfd")
    with (ok (A := mode * list fmt_code)
              (Standard LittleEndian,
               [c_B; c_H; c_I; c_Q; c_b; c_h; c_i; c_q; c_f; c_d])).
  cbn [rbind ok pack_items].
  rewrite !pack_int by (cbn; tauto).
  cbn [prim_of_code code_size].
  repeat match goal with
         | |- context [fits ?k ?z] =>
             destruct (fits k z); cbv beta iota delta [rbind ok raise andb]
         end; try reflexivity.
  rewrite pack_single.
  destruct (single_overflows f32); cbv beta iota delta [rbind ok raise];
    [reflexivity|].
  rewrite pack_double. cbv beta iota delta [rbind ok].
  now rewrite <- !app_assoc.
Qed.

(** In a float field, too large an [int] is a [struct.error] and too large
    a [float] an [OverflowError]. *)
Example float_fields_too_large (pf : platform) :
  pack pf "<f" [PyInt (10 ^ 39)] = raise StructError
  /\ pack pf "<d" [PyInt (10 ^ 400)] = raise StructError
  /\ pack pf "<f" [PyFloat (PyFloat.of_int (10 ^ 39))] = raise OverflowError
  /\ pack pf "<d" [PyInt (10 ^ 39)]
     = ok (le_bytes 8 (PyFloat.bits64 (PyFloat.of_int (10 ^ 39)))).
Proof. repeat split; vm_compute; reflexivity. Qed.

(** X1: [write_binary] packs before it touches the file system.  Whatever
    the arguments: if [struct.pack] raises, [write_binary] raises the same
    exception and nothing has been asked of the file system; if it returns,
    the data are 42 bytes, the first thing asked of the file system is to
    make the output directory, no file is written but
    [os.path.join(output_dir, filename)] with those bytes, and nothing is
    printed but the line that reports that path and 42 bytes. *)
Theorem write_binary_packs_first (pf : platform) (filename : string)
    (u8 u16 u32 u64 i8 i16 i32 i64 f32 f64 : pyval) :
  match pack pf "<BHIQbhiqfd" [u8; u16; u32; u64; i8; i16; i32; i64; f32; f64] with
  | inl e =>
      trace_of (write pf filename u8 u16 u32 u64 i8 i16 i32 i64 f32 f64) = []
      /\ result_of (write pf filename u8 u16 u32 u64 i8 i16 i32 i64 f32 f64)
         = raise e
  | inr data =>
      length data = 42%nat
      /\ head (trace_of (write pf filename u8 u16 u32 u64 i8 i16 i32 i64 f32 f64))
         = Some (EvMkdir (path_of_str primitives_dir))
      /\ Forall (fun f => f = (path_of_str (os_path_join primitives_dir filename),
                               data))
                (written (write pf filename u8 u16 u32 u64 i8 i16 i32 i64 f32 f64))
      /\ Forall (fun line =>
                   line = "Created " ++ os_path_join primitives_dir filename
                            ++ " (42 bytes)")
                (printed
                   (trace_of (write pf filename u8 u16 u32 u64 i8 i16 i32 i64 f32 f64)))
  end.
Proof.
  unfold GeneratePrimitives.write_binary, evaluate, bind, mbind, io_bind, result_of,
    written, trace_of.
  destruct (pack pf "<BHIQbhiqfd" _) as [e|data] eqn:Hp; cbn [fst snd].
  - split; reflexivity.
  - assert (Hlen : length data = 42%nat).
    { unfold pack in Hp. cbn -[pack_items] in Hp.
      apply pack_items_length in Hp. exact Hp. }
    cbv beta iota zeta delta [emit print mret io_ret fst snd].
    rewrite Hlen. cbn [app files_written printed head].
    split; [reflexivity|]. split; [reflexivity|].
    split; (constructor; [reflexivity | constructor]).
Qed.

(** X2: which arguments [write_binary] refuses.  With integers for the
    eight integer fields and floats for the two others: when some integer
    is outside the range of its field, [write_binary] raises [struct.error];
    when all fit but the f32 value rounds to a binary32 infinity, it raises
    [OverflowError]; in both cases before anything is asked of the file
    system.  In every other case packing succeeds, with the 42 bytes of the
    fields one after the other, and the file system is asked for the
    output directory. *)
Theorem write_binary_checks_ranges (pf : platform) (filename : string)
    (u8 u16 u32 u64 i8 i16 i32 i64 : Z) (f32 f64 : spec_float) :
  if ints_fit u8 u16 u32 u64 i8 i16 i32 i64
  then
    if single_overflows f32
    then
      write pf filename (PyInt u8) (PyInt u16) (PyInt u32) (PyInt u64)
            (PyInt i8) (PyInt i16) (PyInt i32) (PyInt i64)
            (PyFloat f32) (PyFloat f64)
      = ([], raise OverflowError)
    else
      pack pf "<BHIQbhiqfd"
        [PyInt u8; PyInt u16; PyInt u32; PyInt u64;
         PyInt i8; PyInt i16; PyInt i32; PyInt i64; PyFloat f32; PyFloat f64]
      = ok (all_primitives_bytes u8 u16 u32 u64 i8 i16 i32 i64 f32 f64)
      /\ head (trace_of
                 (write pf filename (PyInt u8) (PyInt u16) (PyInt u32) (PyInt u64)
                        (PyInt i8) (PyInt i16) (PyInt i32) (PyInt i64)
                        (PyFloat f32) (PyFloat f64)))
         = Some (EvMkdir (path_of_str primitives_dir))
  else
    write pf filename (PyInt u8) (PyInt u16) (PyInt u32) (PyInt u64)
          (PyInt i8) (PyInt i16) (PyInt i32) (PyInt i64)
          (PyFloat f32) (PyFloat f64)
    = ([], raise StructError).
Proof.
  unfold GeneratePrimitives.write_binary, evaluate, bind, mbind, io_bind, trace_of.
  rewrite pack_all_primitives.
  destruct (ints_fit _ _ _ _ _ _ _ _); [|reflexivity].
  destruct (single_overflows f32); [reflexivity|].
  split; reflexivity.
Qed.

(** X3: a file written by [write_binary] reads back as the values it was
    given.  When the integers fit and the f32 value does not overflow, the
    file holds, at offsets 0, 1, 3, 7, the unsigned integers; at offsets 15,
    16, 18, 22, the signed ones in two's complement; at offset 30 the
    binary32 nearest to [f32] and at offset 34 the bits of [f64]. *)
Theorem write_binary_reads_back (pf : platform) (filename : string)
    (u8 u16 u32 u64 i8 i16 i32 i64 : Z) (f32 f64 : spec_float) :
  ints_fit u8 u16 u32 u64 i8 i16 i32 i64 = true ->
  single_overflows f32 = false ->
  exists data,
    written (write pf filename (PyInt u8) (PyInt u16) (PyInt u32) (PyInt u64)
               (PyInt i8) (PyInt i16) (PyInt i32) (PyInt i64)
               (PyFloat f32) (PyFloat f64))
    = [(path_of_str (os_path_join primitives_dir filename), data)]
    /\ le_decode (slice 0 1 data) = u8
    /\ le_decode (slice 1 2 data) = u16
    /\ le_decode (slice 3 4 data) = u32
    /\ le_decode (slice 7 8 data) = u64
    /\ to_signed 1 (le_decode (slice 15 1 data)) = i8
    /\ to_signed 2 (le_decode (slice 16 2 data)) = i16
    /\ to_signed 4 (le_decode (slice 18 4 data)) = i32
    /\ to_signed 8 (le_decode (slice 22 8 data)) = i64
    /\ slice 30 4 data = le_bytes 4 (PyFloat.bits32 (PyFloat.to_single f32))
    /\ slice 34 8 data = le_bytes 8 (PyFloat.bits64 f64).
Proof.
  intros Hfit Hover.
  exists (all_primitives_bytes u8 u16 u32 u64 i8 i16 i32 i64 f32 f64).
  split.
  { unfold written, GeneratePrimitives.write_binary, evaluate, bind, mbind, io_bind,
      trace_of.
    rewrite pack_all_primitives, Hfit, Hover. reflexivity. }
  unfold ints_fit in Hfit.
  do 7 (apply andb_true_iff in Hfit as [Hfit ?]).
  set (data := all_primitives_bytes _ _ _ _ _ _ _ _ _ _).
  change (slice 0 1 data) with (le_bytes (prim_width U8) u8).
  change (slice 1 2 data) with (le_bytes (prim_width U16) u16).
  change (slice 3 4 data) with (le_bytes (prim_width U32) u32).
  change (slice 7 8 data) with (le_bytes (prim_width U64) u64).
  change (slice 15 1 data) with (le_bytes (prim_width I8) i8).
  change (slice 16 2 data) with (le_bytes (prim_width I16) i16).
  change (slice 18 4 data) with (le_bytes (prim_width I32) i32).
  change (slice 22 8 data) with (le_bytes (prim_width I64) i64).
  do 4 (split; [apply unsigned_read_back, fits_unsigned;
                [cbn; tauto | assumption]|]).
  do 4 (split; [apply signed_read_back;
                [cbn; lia | apply fits_signed; [cbn; tauto | assumption]]|]).
  split; reflexivity.
Qed.

(** X4: the platform plays no part.  A format that starts with ['<'] packs
    to the same bytes whatever the native byte order and alignment, and so
    [write_binary] does the same on every platform, for all arguments. *)
Theorem write_binary_ignores_platform (pf pf' : platform) (filename : string)
    (u8 u16 u32 u64 i8 i16 i32 i64 f32 f64 : pyval) :
  (forall (codes : string) (args : list pyval),
     pack pf (String "<" codes) args = pack pf' (String "<" codes) args)
  /\ write pf filename u8 u16 u32 u64 i8 i16 i32 i64 f32 f64
     = write pf' filename u8 u16 u32 u64 i8 i16 i32 i64 f32 f64.
Proof.
  assert (Hpack : forall codes args,
            pack pf (String "<" codes) args = pack pf' (String "<" codes) args).
  { intros codes args. unfold pack.
    change (parse_format pf (String "<" codes))
      with (rbind (parse_codes codes) (fun ks => ok (Standard LittleEndian, ks))).
    change (parse_format pf' (String "<" codes))
      with (rbind (parse_codes codes) (fun ks => ok (Standard LittleEndian, ks))).
    destruct (parse_codes codes) as [e|ks]; cbn [rbind ok]; [reflexivity|].
    apply pack_items_standard. }
  split; [exact Hpack|].
  unfold GeneratePrimitives.write_binary. now rewrite (Hpack "BHIQbhiqfd").
Qed.

(** X5: where the file goes.  A file name that starts with a separator is
    written at that very path, outside the output directory; any other name
    is written at [output_dir + "/" + filename]. *)
Theorem write_binary_destination (pf : platform) (filename : string)
    (u8 u16 u32 u64 i8 i16 i32 i64 f32 f64 : pyval) :
  Forall (fun w => fst w
                   = path_of_str (if starts_with_sep filename then filename
                                  else primitives_dir ++ "/" ++ filename))
         (written (write pf filename u8 u16 u32 u64 i8 i16 i32 i64 f32 f64)).
Proof.
  unfold written, GeneratePrimitives.write_binary, evaluate, bind, mbind, io_bind,
    trace_of.
  destruct (pack pf "<BHIQbhiqfd" _) as [e|data]; cbn [fst snd]; [constructor|].
  cbv beta iota zeta delta [emit print mret io_ret fst snd].
  cbn [app files_written]. constructor; [|constructor]. cbn [fst].
  unfold os_path_join. destruct (starts_with_sep filename); reflexivity.
Qed.

End WriteBinary.

(** ** What the generators leave on the file system *)

Section OnDisk.
Import Py PyStruct Os SpecLayout Fixtures Readback.
Context `{Pathlib}.




(** X7: [generate_test_data.main] never writes a file without first making
    its directory, and reports every file it wrote: its trace is made of
    [print]s and of groups [mkdir -p p.parent; write p; print "Generated: p"].
    The files it writes are, in this order, [BINARY_DIR / name] for the ten
    names listed, each of them a relative name without a [..] part. *)
Theorem test_data_writes_are_prepared (pf : platform) (dir : Path) :
  writes_prepared (trace_of (GenerateTestData.main pf dir))
  /\ map fst (written (GenerateTestData.main pf dir))
     = map (path_div_str (GenerateTestData.BINARY_DIR dir))
         ["arrays/simple.bin"; "arrays/all_zeros.bin";
          "structs/simple.bin"; "structs/rectangle.bin";
          "enums/none.bin"; "enums/value.bin"; "enums/pair.bin";
          "unions/int_value.bin"; "unions/float_value.bin"; "unions/bytes.bin"]
  /\ forallb RelativeNames.stays_below
       ["arrays/simple.bin"; "arrays/all_zeros.bin";
        "structs/simple.bin"; "structs/rectangle.bin";
        "enums/none.bin"; "enums/value.bin"; "enums/pair.bin";
        "unions/int_value.bin"; "unions/float_value.bin"; "unions/bytes.bin"]
     = true.
Proof.
  split; [|split].
  - destruct pf as [[] al]; vm_compute; repeat split.
  - rewrite test_data_written. reflexivity.
  - vm_compute. reflexivity.
Qed.

End OnDisk.


(** ** More on the driver *)

Section DriverProperties.
Import Py Os Proc RunIrParityChecks DriverRuns DriverEndings Readback.
Context {W : Type} `{System W}.
Variable script_dir : Path.
Variable parser : list string -> CommandLine.parsing.

Local Abbreviation root := (find_project_root script_dir).

Ltac run_all :=
  cbv beta iota zeta delta
    [main build_compliance_harness run_parity_checks
     bind mbind mret proc_bind proc_ret Proc.print run when sys_exit exists_
     outcome_of trace final_state
     ending build_run harness_run project_root fst snd].

(** [main] ends as the table [ending] says. *)
Lemma main_ending (args : Namespace) (w : W) :
  (outcome_of (main script_dir args w), last (trace (main script_dir args w)),
   final_state (main script_dir args w))
  = ending script_dir args w.
Proof.
  run_all.
  destruct (subprocess_run (build_cmd _) _ _ w) as [[e|cp] w1] eqn:Hb;
    cbv beta iota zeta; [reflexivity|].
  destruct (returncode cp =? 0) eqn:Hrc; cbn [negb]; cbv beta iota zeta.
  2: { destruct (negb (verbose args) && truthy_str (stderr cp)); reflexivity. }
  destruct (build_only args); cbv beta iota zeta; [reflexivity|].
  rewrite determine_test_dir_returns. cbv beta iota zeta.
  fold (project_root script_dir).
  destruct (path_exists (resolved_test_dir script_dir args w1) w1);
    cbn [negb]; cbv beta iota zeta; [|reflexivity].
  destruct (path_exists (harness_binary _) w1);
    cbn [negb]; cbv beta iota zeta; [|reflexivity].
  destruct (subprocess_run (parity_cmd _ _ _ _) _ _ w1) as [[e|cp2] w2] eqn:Hh;
    cbv beta iota zeta; [reflexivity|].
  destruct (returncode cp2 =? 0); reflexivity.
Qed.

Lemma main_outcome (args : Namespace) (w : W) :
  outcome_of (main script_dir args w) = fst (fst (ending script_dir args w)).
Proof. now rewrite <- main_ending. Qed.

Lemma main_last (args : Namespace) (w : W) :
  last (trace (main script_dir args w)) = snd (fst (ending script_dir args w)).
Proof. now rewrite <- main_ending. Qed.

Lemma main_final_state (args : Namespace) (w : W) :
  final_state (main script_dir args w) = snd (ending script_dir args w).
Proof. now rewrite <- main_ending. Qed.

Ltac by_cases_of_ending :=
  unfold ending, decisions, reaches_harness, returned_zero, build_succeeded,
    harness_process, project_root;
  destruct (fst (build_run _ _ _)) as [?e|?cp];
  [|repeat match goal with
           | |- context [returncode ?c =? 0] => destruct (returncode c =? 0)
           | |- context [build_only ?a] => destruct (build_only a)
           | |- context [path_exists ?p ?s] => destruct (path_exists p s)
           | |- context [fst (harness_run ?s ?a ?d ?x)] =>
               destruct (fst (harness_run s a d x)) as [?e|?cp]
           end];
  cbn [fst snd negb andb exit_status].

(** X8: [build_compliance_harness] starts exactly one process:
    [cargo build --release], with [--quiet] unless verbose, in the harness
    directory, its output captured unless verbose.  It raises when [cargo]
    cannot be started and otherwise returns whether [cargo] returned 0; the
    machine is left as [cargo] left it. *)
Theorem build_runs_cargo_once (project_root : Path) (verbose : bool) (w : W) :
  build_cmd verbose
    = (["cargo"; "build"; "--release"] ++ (if verbose then [] else ["--quiet"]))%list
  /\ processes_run (trace (build_compliance_harness project_root verbose w))
     = [(build_cmd verbose, Some (harness_dir project_root),
         fst (subprocess_run (build_cmd verbose) (Some (harness_dir project_root))
                             (negb verbose) w))]
  /\ final_state (build_compliance_harness project_root verbose w)
     = snd (subprocess_run (build_cmd verbose) (Some (harness_dir project_root))
                           (negb verbose) w)
  /\ outcome_of (build_compliance_harness project_root verbose w)
     = match fst (subprocess_run (build_cmd verbose) (Some (harness_dir project_root))
                                 (negb verbose) w) with
       | inl e => Raised e
       | inr cp => Returned (returncode cp =? 0)
       end.
Proof.
  split; [destruct verbose; reflexivity|].
  cbv beta iota zeta delta
    [build_compliance_harness bind mbind mret proc_bind proc_ret Proc.print run when
     outcome_of trace final_state fst snd].
  destruct (subprocess_run _ _ _ w) as [[e|cp] w1]; cbv beta iota zeta;
    [repeat split|].
  destruct (returncode cp =? 0); cbn [negb]; cbv beta iota zeta;
    [repeat split|].
  destruct (negb verbose && truthy_str (stderr cp)); repeat split.
Qed.

(** X9: what the build prints.  After the line announcing the build comes
    one line saying that it succeeded, or one saying that it failed; after
    a failure, [cargo]'s standard error follows only when the driver is not
    verbose and that text is not empty. *)
Theorem build_shows_stderr_on_failure (project_root : Path) (verbose : bool) (w : W) :
  printed (trace (build_compliance_harness project_root verbose w))
  = "Building compliance harness..."
    :: match fst (subprocess_run (build_cmd verbose) (Some (harness_dir project_root))
                                 (negb verbose) w) with
       | inl _ => []
       | inr cp =>
           if returncode cp =? 0
           then ["Compliance harness built successfully."]
           else "Failed to build compliance harness:"
                :: match stderr cp with
                   | Some (String c s) => if verbose then [] else [String c s]
                   | _ => []
                   end
       end.
Proof.
  cbv beta iota zeta delta
    [build_compliance_harness bind mbind mret proc_bind proc_ret Proc.print run when
     outcome_of trace final_state fst snd].
  destruct (subprocess_run _ _ _ w) as [[e|cp] w1]; cbv beta iota zeta;
    [reflexivity|].
  destruct (returncode cp =? 0); cbn [negb]; cbv beta iota zeta; [reflexivity|].
  destruct verbose, (stderr cp) as [[|c s]|]; reflexivity.
Qed.

(** [main()] is [parse_args], then the rest of [main]. *)
Lemma command_line_main (argv : list string) (w : W) :
  CommandLine.main script_dir parser argv w
  = match parser argv with
    | CommandLine.Parsed args => main script_dir args w
    | CommandLine.Help text => ([EvPrint text], Exited 0, w)
    | CommandLine.Refused message => ([EvPrint message], Exited 2, w)
    end.
Proof.
  unfold CommandLine.main, CommandLine.parse_args, bind, mbind, proc_bind.
  destruct (parser argv) as [args|text|message]; [|reflexivity|reflexivity].
  cbv beta iota zeta delta [mret proc_ret].
  destruct (main script_dir args w) as [[t o] w']. reflexivity.
Qed.

(** Once the command line is parsed, [main] leaves through [sys.exit(0)]
    or [sys.exit(1)], or raises. *)
Lemma main_leaves (args : Namespace) (w : W) :
  match outcome_of (main script_dir args w) with
  | Returned _ => False
  | Exited code => code = 0 \/ code = 1
  | Raised _ => True
  end.
Proof.
  rewrite main_outcome.
  by_cases_of_ending; auto.
Qed.

(** When the rest of [main] exits with code 0. *)
Lemma main_exits_zero (args : Namespace) (w : W) :
  exit_code (main script_dir args w) = 0
  <-> (returned_zero (fst (build_run script_dir args w)) = true
       /\ build_only args = true)
      \/ (reaches_harness script_dir args w = true
          /\ returned_zero
               (fst (harness_run script_dir args
                       (resolved_test_dir script_dir args
                          (snd (build_run script_dir args w)))
                       (snd (build_run script_dir args w)))) = true).
Proof.
  rewrite main_exit_code.
  by_cases_of_ending; split; intros Hx; try discriminate Hx; try reflexivity;
    try (destruct Hx as [[? ?]|[? ?]]; discriminate); auto.
Qed.

(** The processes the rest of [main] starts. *)
Lemma main_starts (args : Namespace) (w : W) :
  processes_run (trace (main script_dir args w))
  = build_process script_dir args w
    :: (if reaches_harness script_dir args w
        then [harness_process script_dir args
                (resolved_test_dir script_dir args
                   (snd (build_run script_dir args w)))
                (snd (build_run script_dir args w))]
        else []).
Proof.
  rewrite main_processes.
  by_cases_of_ending; reflexivity.
Qed.

(** X10: [main] never falls off its end.  Every run leaves through
    [sys.exit] with code 0, 1 or 2, or dies of an exception nothing caught.
    The code is 2 only when [parse_args] refused the command line, an
    exception comes only after the command line was parsed, and the exit
    status of the process is 2 exactly when the command line was refused. *)
Theorem main_always_exits (argv : list string) (w : W) :
  match outcome_of (CommandLine.main script_dir parser argv w) with
  | Returned _ => False
  | Exited code =>
      code = 0 \/ code = 1
      \/ (code = 2 /\ exists message, parser argv = CommandLine.Refused message)
  | Raised _ => exists args, parser argv = CommandLine.Parsed args
  end
  /\ (exit_code (CommandLine.main script_dir parser argv w) = 2
      <-> exists message, parser argv = CommandLine.Refused message).
Proof.
  unfold exit_code. rewrite command_line_main.
  destruct (parser argv) as [args|text|message]; cbn [outcome_of fst snd exit_status].
  - pose proof (main_leaves args w) as Hl.
    destruct (outcome_of (main script_dir args w)) as [u|code|e];
      cbn [exit_status]; [destruct Hl| |].
    + split; [tauto|]. split; [lia|]. intros [message [=]].
    + split; [now exists args|]. split; [discriminate|]. intros [message [=]].
  - split; [auto|]. split; [discriminate|]. intros [message [=]].
  - split; [right; right; split; [reflexivity | now exists message]|].
    split; [now exists message | reflexivity].
Qed.

(** X11: when the driver exits with code 0.  The exit code is 0 exactly
    when the command line asked for the help, or it was parsed, the build
    succeeded, and either [--build-only] was given or the driver got as far
    as the harness and the harness returned 0. *)
Theorem exit_code_zero_iff (argv : list string) (w : W) :
  exit_code (CommandLine.main script_dir parser argv w) = 0
  <-> (exists text, parser argv = CommandLine.Help text)
      \/ (exists args,
            parser argv = CommandLine.Parsed args
            /\ ((returned_zero (fst (build_run script_dir args w)) = true
                 /\ build_only args = true)
                \/ (reaches_harness script_dir args w = true
                    /\ returned_zero
                         (fst (harness_run script_dir args
                                 (resolved_test_dir script_dir args
                                    (snd (build_run script_dir args w)))
                                 (snd (build_run script_dir args w)))) = true))).
Proof.
  rewrite command_line_main.
  destruct (parser argv) as [args|text|message].
  - rewrite main_exits_zero. split.
    + intros Hz. right. now exists args.
    + intros [[text [=]]|(args' & [= <-] & Hz)]. exact Hz.
  - split; [intros _; left; now exists text | reflexivity].
  - split; [discriminate|]. intros [[text [=]]|(args & [=] & _)].
Qed.

(** X12: which processes the driver starts.  None when [parse_args] makes
    it leave, for the help or for a command line it refuses.  Otherwise the
    build comes first; the harness follows exactly when the driver gets as
    far as it, on the resolved test directory and in the state the build
    left; and nothing else is ever started. *)
Theorem harness_started_iff (argv : list string) (w : W) :
  processes_run (trace (CommandLine.main script_dir parser argv w))
  = match parser argv with
    | CommandLine.Parsed args =>
        build_process script_dir args w
        :: (if reaches_harness script_dir args w
            then [harness_process script_dir args
                    (resolved_test_dir script_dir args
                       (snd (build_run script_dir args w)))
                    (snd (build_run script_dir args w))]
            else [])
    | _ => []
    end.
Proof.
  rewrite command_line_main.
  destruct (parser argv) as [args|text|message]; [apply main_starts | | ];
    reflexivity.
Qed.

(** X13: an empty option value counts as no option.  [--test-dir ""] makes
    the driver do exactly what it does without [--test-dir], and
    [--output ""] exactly what it does without [--output]. *)
Theorem empty_options_are_absent (v b : bool) (t o : option string) (w : W) :
  main script_dir
    {| verbose := v; test_dir := Some EmptyString; output := o; build_only := b |} w
  = main script_dir
      {| verbose := v; test_dir := None; output := o; build_only := b |} w
  /\ main script_dir
       {| verbose := v; test_dir := t; output := Some EmptyString; build_only := b |} w
     = main script_dir
         {| verbose := v; test_dir := t; output := None; build_only := b |} w.
Proof. split; reflexivity. Qed.

(** X14: a build that leaves no harness binary.  When the build succeeded
    and the test directory exists but the binary does not,
    [run_parity_checks] starts nothing and returns false, and the driver
    exits with code 1 after the failure banner, having started only the
    build. *)
Theorem missing_binary_fails (args : Namespace) (w : W) :
  returned_zero (fst (build_run script_dir args w)) = true ->
  build_only args = false ->
  path_exists (resolved_test_dir script_dir args (snd (build_run script_dir args w)))
              (snd (build_run script_dir args w)) = true ->
  path_exists (harness_binary root) (snd (build_run script_dir args w)) = false ->
  run_parity_checks root
    (resolved_test_dir script_dir args (snd (build_run script_dir args w)))
    (verbose args) (output args) (snd (build_run script_dir args w))
  = ([EvPrint ("Compliance harness binary not found at "
                 ++ path_str (harness_binary root))],
     Returned false, snd (build_run script_dir args w))
  /\ exit_code (main script_dir args w) = 1
  /\ processes_run (trace (main script_dir args w)) = [build_process script_dir args w]
  /\ last (trace (main script_dir args w)) = Some (EvPrint failed_banner).
Proof.
  intros Hbuilt Hgate Hdir Hbin.
  split.
  { cbv beta iota zeta delta
      [run_parity_checks bind mbind mret proc_bind proc_ret Proc.print exists_].
    rewrite Hbin. reflexivity. }
  rewrite main_exit_code, main_processes, main_last.
  unfold decisions, ending.
  change (build_succeeded (fst (build_run script_dir args w)))
    with (returned_zero (fst (build_run script_dir args w))).
  rewrite Hbuilt, Hgate, Hdir. unfold project_root. rewrite Hbin. cbn [negb fst snd].
  destruct (fst (build_run script_dir args w)) as [e|cp]; [discriminate Hbuilt|].
  cbn [returned_zero] in Hbuilt. rewrite Hbuilt. cbn [negb fst snd].
  repeat split.
Qed.

(** X15: a harness that cannot be started.  When the driver gets as far as
    the harness and [subprocess.run] raises, nothing catches the exception:
    the driver dies with it (exit status 1), the failed start being the
    last thing it did, with no verdict printed after it. *)
Theorem harness_cannot_start (args : Namespace) (w : W) (e : exn) :
  reaches_harness script_dir args w = true ->
  fst (harness_run script_dir args
         (resolved_test_dir script_dir args (snd (build_run script_dir args w)))
         (snd (build_run script_dir args w))) = inl e ->
  outcome_of (main script_dir args w) = Raised e
  /\ exit_code (main script_dir args w) = 1
  /\ last (trace (main script_dir args w))
     = Some (EvRun (parity_cmd root
                      (resolved_test_dir script_dir args
                         (snd (build_run script_dir args w)))
                      (verbose args) (output args))
                   None (inl e)).
Proof.
  intros Hreach Hraise.
  unfold exit_code. rewrite main_outcome, main_last.
  unfold reaches_harness in Hreach.
  apply andb_true_iff in Hreach as [Hreach Hbin].
  apply andb_true_iff in Hreach as [Hreach Hdir].
  apply andb_true_iff in Hreach as [Hbuilt Hgate%negb_true_iff].
  unfold ending, project_root in *.
  destruct (fst (build_run script_dir args w)) as [e0|cp]; [discriminate Hbuilt|].
  cbn [returned_zero] in Hbuilt.
  rewrite Hbuilt, Hgate, Hdir, Hbin, Hraise. cbn [negb fst snd exit_status].
  repeat split.
Qed.

(** X16: the verdict is announced.  When the harness ran to its end, the
    last line the driver prints is the success banner if the harness
    returned 0 and the failure banner otherwise, and the exit code agrees
    with the banner. *)
Theorem verdict_is_announced (args : Namespace) (w : W) (cp : CompletedProcess) :
  reaches_harness script_dir args w = true ->
  fst (harness_run script_dir args
         (resolved_test_dir script_dir args (snd (build_run script_dir args w)))
         (snd (build_run script_dir args w))) = inr cp ->
  last (trace (main script_dir args w))
    = Some (EvPrint (if returncode cp =? 0 then passed_banner else failed_banner))
  /\ exit_code (main script_dir args w) = (if returncode cp =? 0 then 0 else 1).
Proof.
  intros Hreach Hran.
  unfold exit_code. rewrite main_outcome, main_last.
  unfold reaches_harness in Hreach.
  apply andb_true_iff in Hreach as [Hreach Hbin].
  apply andb_true_iff in Hreach as [Hreach Hdir].
  apply andb_true_iff in Hreach as [Hbuilt Hgate%negb_true_iff].
  unfold ending, project_root in *.
  destruct (fst (build_run script_dir args w)) as [e0|cp0]; [discriminate Hbuilt|].
  cbn [returned_zero] in Hbuilt.
  rewrite Hbuilt, Hgate, Hdir, Hbin, Hran. cbn [negb fst snd exit_status].
  split; reflexivity.
Qed.

End DriverProperties.


(** ** The further properties on concrete machines *)

Section FurtherWitnesses.
Import Py PyStruct Os Proc RunIrParityChecks DriverRuns DriverEndings
  Machine Workshop Fixtures Readback.

Lemma write_binary_reads_back_witness :
  ints_fit 42 1000 0x12345678 0x123456789ABCDEF0
           (-42) (-1234) (-123456) (-123456789) = true
  /\ single_overflows Corpus.f_pi = false
  /\ exists data,
       written (GeneratePrimitives.write_binary little_endian_machine
                  "common_values.bin"
                  (PyInt 42) (PyInt 1000) (PyInt 0x12345678)
                  (PyInt 0x123456789ABCDEF0)
                  (PyInt (-42)) (PyInt (-1234)) (PyInt (-123456))
                  (PyInt (-123456789))
                  (PyFloat Corpus.f_pi) (PyFloat Corpus.f_e))
       = [(path_of_str (os_path_join primitives_dir "common_values.bin"), data)]
       /\ le_decode (slice 0 1 data) = 42
       /\ le_decode (slice 1 2 data) = 1000
       /\ le_decode (slice 3 4 data) = 0x12345678
       /\ le_decode (slice 7 8 data) = 0x123456789ABCDEF0
       /\ to_signed 1 (le_decode (slice 15 1 data)) = -42
       /\ to_signed 2 (le_decode (slice 16 2 data)) = -1234
       /\ to_signed 4 (le_decode (slice 18 4 data)) = -123456
       /\ to_signed 8 (le_decode (slice 22 8 data)) = -123456789
       /\ slice 30 4 data
          = le_bytes 4 (PyFloat.bits32 (PyFloat.to_single Corpus.f_pi))
       /\ slice 34 8 data = le_bytes 8 (PyFloat.bits64 Corpus.f_e).
Proof.
  split; [reflexivity|]. split; [reflexivity|].
  apply (write_binary_reads_back little_endian_machine "common_values.bin");
    reflexivity.
Defined.


Lemma missing_binary_fails_witness :
  returned_zero (fst (build_run scripts plain_args no_binary)) = true
  /\ build_only plain_args = false
  /\ path_exists
       (resolved_test_dir scripts plain_args
          (snd (build_run scripts plain_args no_binary)))
       (snd (build_run scripts plain_args no_binary)) = true
  /\ path_exists (harness_binary (find_project_root scripts))
       (snd (build_run scripts plain_args no_binary)) = false
  /\ run_parity_checks (find_project_root scripts)
       (resolved_test_dir scripts plain_args
          (snd (build_run scripts plain_args no_binary)))
       (verbose plain_args) (output plain_args)
       (snd (build_run scripts plain_args no_binary))
     = ([EvPrint ("Compliance harness binary not found at "
                    ++ path_str (harness_binary (find_project_root scripts)))],
        Returned false, snd (build_run scripts plain_args no_binary))
  /\ exit_code (main scripts plain_args no_binary) = 1
  /\ processes_run (trace (main scripts plain_args no_binary))
     = [build_process scripts plain_args no_binary]
  /\ last (trace (main scripts plain_args no_binary)) = Some (EvPrint failed_banner).
Proof.
  do 4 (split; [reflexivity|]).
  apply (missing_binary_fails scripts plain_args no_binary); reflexivity.
Defined.

Lemma harness_cannot_start_witness :
  reaches_harness scripts plain_args broken_harness = true
  /\ fst (harness_run scripts plain_args
            (resolved_test_dir scripts plain_args
               (snd (build_run scripts plain_args broken_harness)))
            (snd (build_run scripts plain_args broken_harness))) = inl OSError
  /\ outcome_of (main scripts plain_args broken_harness) = Raised OSError
  /\ exit_code (main scripts plain_args broken_harness) = 1
  /\ last (trace (main scripts plain_args broken_harness))
     = Some (EvRun (parity_cmd (find_project_root scripts)
                      (resolved_test_dir scripts plain_args
                         (snd (build_run scripts plain_args broken_harness)))
                      (verbose plain_args) (output plain_args))
                   None (inl OSError)).
Proof.
  do 2 (split; [reflexivity|]).
  apply (harness_cannot_start scripts plain_args broken_harness OSError);
    reflexivity.
Defined.

Lemma verdict_is_announced_witness :
  reaches_harness scripts plain_args parity_fails = true
  /\ fst (harness_run scripts plain_args
            (resolved_test_dir scripts plain_args
               (snd (build_run scripts plain_args parity_fails)))
            (snd (build_run scripts plain_args parity_fails)))
     = inr (completed 1 false)
  /\ last (trace (main scripts plain_args parity_fails))
     = Some (EvPrint (if returncode (completed 1 false) =? 0
                      then passed_banner else failed_banner))
  /\ exit_code (main scripts plain_args parity_fails)
     = (if returncode (completed 1 false) =? 0 then 0 else 1).
Proof.
  do 2 (split; [reflexivity|]).
  apply (verdict_is_announced scripts plain_args parity_fails (completed 1 false));
    reflexivity.
Defined.

(** On a fresh checkout the binary does not exist before the build; the
    driver looks for it after the build, finds it, and runs the harness. *)
Example binary_is_looked_for_after_the_build :
  path_exists (harness_binary (find_project_root scripts)) fresh_checkout = false
  /\ exit_code (main scripts plain_args fresh_checkout) = 0
  /\ length (processes_run (trace (main scripts plain_args fresh_checkout))) = 2%nat.
Proof. repeat split. Qed.

End FurtherWitnesses.

Section TestDirectory.
Import Py Os Proc RunIrParityChecks.
Context {W : Type} `{System W}.

(** X17: how the test directory is chosen.  A non-empty [--test-dir] wins:
    an absolute one is taken as it is and a relative one is taken below the
    project root, whether or not it exists.  Without it the driver takes
    [tests/compliance_tests/test_cases] if that exists and falls back to
    [tests] if not.  Choosing prints nothing, starts nothing and leaves the
    machine as it is. *)
Theorem test_dir_choice (project_root : Path) (v b : bool) (o : option string)
    (w : W) :
  (forall c s,
     determine_test_dir project_root
       {| verbose := v; test_dir := Some (String c s); output := o;
          build_only := b |} w
     = ([],
        Returned (if path_is_absolute (path_of_str (String c s))
                  then path_of_str (String c s)
                  else path_div project_root (path_of_str (String c s))),
        w))
  /\ determine_test_dir project_root
       {| verbose := v; test_dir := None; output := o; build_only := b |} w
     = find_compliance_tests_dir project_root w
  /\ find_compliance_tests_dir project_root w
     = ([],
        Returned
          (if path_exists
                (path_div_str
                   (path_div_str (path_div_str project_root "tests")
                                 "compliance_tests") "test_cases") w
           then path_div_str
                  (path_div_str (path_div_str project_root "tests")
                                "compliance_tests") "test_cases"
           else path_div_str project_root "tests"),
        w).
Proof.
  split; [|split].
  - intros c s. unfold determine_test_dir. cbn [test_dir truthy_str default].
    cbv zeta. destruct (path_is_absolute _); reflexivity.
  - reflexivity.
  - cbv beta iota zeta delta
      [find_compliance_tests_dir bind mbind mret proc_bind proc_ret exists_].
    destruct (path_exists _ w); reflexivity.
Qed.

End TestDirectory.
